(** * Work-package task CLI: lane moves, activity log, acceptance

    A shallow embedding of [.kittify/scripts/tasks/tasks_cli.py].

    Conventions of the embedding:
    - a Python [str] is the [string] of the bytes of its UTF-8 encoding;
      its length in characters, which [len] and [ljust] go by, is [Str.len];
    - an [Optional[str]] is an [option string]; Python truthiness of such a
      value ([None] and the empty string are falsy) is [truthy];
    - a [Path] is its list of components, the first of which is "/" when
      the path is absolute;
    - every command is a function from the world before to an outcome and
      the world after.  The world records, in order, the calls that can
      change the repository (mkdir, write_text, run_git, perform_acceptance)
      and what was printed.  Helpers that only inspect the repository are
      functions of the world. *)

From stdpp Require Import base option list strings sorting gmap pretty.
From Stdlib Require Import Ascii ZArith Lia.
From Stdlib Require String.

(* ================================================================== *)
(** * Strings *)

Module Str.

Definition NL : string := String "010"%char "".

(** [s.startswith(p)], returning what follows the prefix. *)
Fixpoint strip_prefix (p s : string) : option string :=
  match p with
  | "" => Some s
  | String a p' =>
      match s with
      | String b s' => if Ascii.eqb a b then strip_prefix p' s' else None
      | "" => None
      end
  end.

(** [s.partition(sep)] when the separator occurs: the text before its first
    occurrence and the text after it. *)
Fixpoint partition (sep s : string) : option (string * string) :=
  match strip_prefix sep s with
  | Some rest => Some ("", rest)
  | None =>
      match s with
      | "" => None
      | String a s' =>
          match partition sep s' with
          | Some (before, rest) => Some (String a before, rest)
          | None => None
          end
      end
  end.

Definition is_newline (c : ascii) : bool := Ascii.eqb c "010"%char.

(** The double quote character. *)
Definition QUOTE : ascii := "034"%char.

(** The longest run of newlines at the start of [s], and the rest. *)
Fixpoint span_newlines (s : string) : string * string :=
  match s with
  | String c s' =>
      if is_newline c
      then let '(nls, rest) := span_newlines s' in (String c nls, rest)
      else ("", s)
  | "" => ("", "")
  end.

(** [s.split("\n")]. *)
Fixpoint split_lines (s : string) : list string :=
  match s with
  | "" => [""]
  | String c s' =>
      if is_newline c then "" :: split_lines s'
      else match split_lines s' with
           | l :: ls => String c l :: ls
           | [] => [String c ""]
           end
  end.

(** [s.endswith("\n")]. *)
Fixpoint ends_with_newline (s : string) : bool :=
  match s with
  | "" => false
  | String c "" => is_newline c
  | String _ s' => ends_with_newline s'
  end.

Fixpoint has_newline (s : string) : bool :=
  match s with
  | "" => false
  | String c s' => is_newline c || has_newline s'
  end.

(** A byte that continues a character of UTF-8 text: 10xxxxxx. *)
Definition is_continuation (c : ascii) : bool :=
  match c with
  | Ascii _ _ _ _ _ _ b6 b7 => b7 && negb b6
  end.

(** [len(s)]: the number of characters of [s], that is of the bytes that
    start one. *)
Fixpoint len (s : string) : nat :=
  match s with
  | "" => 0
  | String c s' => if is_continuation c then len s' else S (len s')
  end.

(** [c * n] for a string [c]. *)
Definition times (c : string) (n : nat) : string :=
  String.concat "" (replicate n c).

(** [s.ljust(width)]. *)
Definition ljust (s : string) (width : nat) : string :=
  s +:+ times " " (width - len s).

(** [s.split(c)] for a character [c]. *)
Fixpoint split_char (c : ascii) (s : string) : list string :=
  match s with
  | "" => [""]
  | String a s' =>
      if Ascii.eqb a c then "" :: split_char c s'
      else match split_char c s' with
           | l :: ls => String a l :: ls
           | [] => [String a ""]
           end
  end.

(** [sep.join(items)]. *)
Definition join (sep : string) (items : list string) : string :=
  String.concat sep items.

(** [s.strip(chars)] for a one-character set. *)
Fixpoint lstrip_char (c : ascii) (s : string) : string :=
  match s with
  | String a s' => if Ascii.eqb a c then lstrip_char c s' else s
  | "" => ""
  end.

Definition strip_char (c : ascii) (s : string) : string :=
  String.rev (lstrip_char c (String.rev (lstrip_char c s))).

(** The characters that [str.strip()] removes, each as its bytes: U+0009 to
    U+000D, U+001C to U+0020, U+0085, U+00A0, U+1680, U+2000 to U+200A,
    U+2028, U+2029, U+202F, U+205F and U+3000. *)
Definition whitespace : list string :=
  map (fun codes => String.string_of_list_ascii (map ascii_of_nat codes))
    [[9]; [10]; [11]; [12]; [13]; [28]; [29]; [30]; [31]; [32];
     [194; 133]; [194; 160]; [225; 154; 128];
     [226; 128; 128]; [226; 128; 129]; [226; 128; 130]; [226; 128; 131];
     [226; 128; 132]; [226; 128; 133]; [226; 128; 134]; [226; 128; 135];
     [226; 128; 136]; [226; 128; 137]; [226; 128; 138];
     [226; 128; 168]; [226; 128; 169]; [226; 128; 175]; [226; 129; 159];
     [227; 128; 128]].

(** [s] without the first of [prefixes] that it starts with, if any. *)
Fixpoint strip_any (prefixes : list string) (s : string) : option string :=
  match prefixes with
  | [] => None
  | p :: prefixes' =>
      match strip_prefix p s with
      | Some rest => Some rest
      | None => strip_any prefixes' s
      end
  end.

(** [s] without its leading run of [prefixes]; [fuel] bounds their number. *)
Fixpoint lstrip_any (fuel : nat) (prefixes : list string) (s : string) : string :=
  match fuel with
  | 0 => s
  | S fuel' =>
      match strip_any prefixes s with
      | Some rest => lstrip_any fuel' prefixes rest
      | None => s
      end
  end.

(** [s.lstrip()]. *)
Definition lstrip (s : string) : string :=
  lstrip_any (String.length s) whitespace s.

(** [s.rstrip()]: the same from the end, on the bytes in reverse. *)
Definition rstrip (s : string) : string :=
  String.rev (lstrip_any (String.length s) (map String.rev whitespace) (String.rev s)).

(** [s.strip()]. *)
Definition strip (s : string) : string := rstrip (lstrip s).

End Str.

(** Truthiness of an [Optional[str]]. *)
Definition truthy (o : option string) : bool :=
  match o with
  | Some s => negb (String.eqb s "")
  | None => false
  end.

(** [a or b] on [Optional[str]] values. *)
Definition py_or (a b : option string) : option string :=
  if truthy a then a else b.

(** [a or b] where [b] is a [str]: the result is a [str]. *)
Definition py_or_str (a : option string) (b : string) : string :=
  match a with
  | Some s => if String.eqb s "" then b else s
  | None => b
  end.

(* ================================================================== *)
(** * Document model *)

Module Document.

Definition fence : string := "---".

(** Modelled from the spec: [split_frontmatter] of task_helpers.py, which is
    not part of the sources at hand.  The spec has a markdown file parsed
    into a frontmatter key-value block, a body text and a padding.  Here the
    frontmatter block is what stands between an opening fence line and the
    first closing fence, the padding is the run of newlines that trails the
    closing fence, and the body is the rest.  A text with no fenced block
    has no frontmatter and is all body. *)
Definition split_frontmatter (text : string) : option string * string * string :=
  match Str.strip_prefix (fence +:+ Str.NL) text with
  | None => (None, text, "")
  | Some rest =>
      match Str.partition (Str.NL +:+ fence) rest with
      | None => (None, text, "")
      | Some (front, tail) =>
          let '(padding, body) := Str.span_newlines tail in
          (Some front, body, padding)
      end
  end.

(** Modelled from the spec: [build_document] of task_helpers.py, absent from
    the sources at hand; the serializer of the three parts. *)
Definition build_document (frontmatter : option string) (body padding : string) : string :=
  match frontmatter with
  | Some front => fence +:+ Str.NL +:+ front +:+ Str.NL +:+ fence +:+ padding +:+ body
  | None => padding +:+ body
  end.

End Document.

(* ================================================================== *)
(** * Activity log *)

Module ActivityLog.

(** One parsed log line; [activity_entries] returns a list of these.  The
    commands read the keys "lane" and "agent" by subscript and "shell_pid"
    with [.get], so the latter may be missing. *)
Record Entry : Type := mkEntry {
  timestamp : string;
  agent : string;
  shell_pid : option string;
  lane : string;
  note : string
}.

(** The field separator of a log line: an en dash between two spaces. *)
Definition dash : string := " – ".

(** The log line that [stage_move] and [history_command] build:
    [f"- {timestamp} – {agent} – shell_pid={shell_pid} – lane={lane} – {note}"]. *)
Definition log_entry (timestamp agent shell_pid lane note : string) : string :=
  "- " +:+ timestamp +:+ dash +:+ agent +:+ dash +:+ "shell_pid=" +:+ shell_pid
  +:+ dash +:+ "lane=" +:+ lane +:+ dash +:+ note.

(** Modelled from the spec: the line grammar of [activity_entries] of
    task_helpers.py, which is not part of the sources at hand.  A log line
    is read back field by field in the layout [log_entry] writes, the
    shell_pid field being optional; the note is whatever follows the lane. *)
Definition parse_entry (line : string) : option Entry :=
  if Str.has_newline line then None else
  rest ← Str.strip_prefix "- " line;
  '(ts, r1) ← Str.partition dash rest;
  '(ag, r2) ← Str.partition dash r1;
  let '(pid, r3) :=
    match Str.strip_prefix "shell_pid=" r2 with
    | Some r =>
        match Str.partition dash r with
        | Some (pid, r') => (Some pid, r')
        | None => (None, r2)
        end
    | None => (None, r2)
    end in
  r4 ← Str.strip_prefix "lane=" r3;
  '(ln, nt) ← Str.partition dash r4;
  Some (mkEntry ts ag pid ln nt).

(** Modelled from the spec: [activity_entries] of task_helpers.py, absent
    from the sources at hand.  The log is embedded in the body: its entries
    are the lines of the body that read as log lines, in the order of the
    text. *)
Definition activity_entries (body : string) : list Entry :=
  omap parse_entry (Str.split_lines body).

(** Modelled from the spec: [append_activity_log] of task_helpers.py, absent
    from the sources at hand.  The entry becomes the last line of the body,
    on a line of its own. *)
Definition append_activity_log (body entry : string) : string :=
  (if String.eqb body "" || Str.ends_with_newline body
   then body else body +:+ Str.NL) +:+ entry +:+ Str.NL.

End ActivityLog.

(* ================================================================== *)
(** * Paths *)

Module Path.

(** A [pathlib.Path], as the list of its components. *)
Definition t : Type := list string.

(** The components of a segment: its parts between slashes, the empty ones
    and the dots left out. *)
Definition segments (segment : string) : t :=
  filter (fun part => part <> "" /\ part <> ".") (Str.split_char "/"%char segment).

(** [p / segment]: the components of the segment are added to [p], unless
    the segment is absolute, in which case it is the result. *)
Definition child (p : t) (segment : string) : t :=
  match segment with
  | String "/"%char _ => "/" :: segments segment
  | _ => p ++ segments segment
  end.

(** [p / rel] for a relative path [rel]. *)
Definition join (p rel : t) : t := p ++ rel.

(** [p.relative_to(root)]; [None] stands for the [ValueError] raised when
    [root] is not a prefix of [p]. *)
Fixpoint relative_to (p root : t) : option t :=
  match root with
  | [] => Some p
  | r :: root' =>
      match p with
      | c :: p' => if String.eqb c r then relative_to p' root' else None
      | [] => None
      end
  end.

(** [p.name]. *)
Definition name (p : t) : string := List.last p "".

(** [p.stem]: the name without its last suffix; a leading or a trailing dot
    starts no suffix. *)
Definition stem (p : t) : string :=
  let n := name p in
  match Str.partition "." (String.rev n) with
  | Some (suffix_rev, base_rev) =>
      if String.eqb base_rev "" || String.eqb suffix_rev "" then n
      else String.rev base_rev
  | None => n
  end.

(** [str(p)]. *)
Definition str (p : t) : string :=
  match p with
  | "/" :: rest => "/" +:+ Str.join "/" rest
  | _ => Str.join "/" p
  end.

(** The order of paths: component by component, each as a string. *)
Fixpoint leb (p q : t) : bool :=
  match p, q with
  | [], _ => true
  | _ :: _, [] => false
  | a :: p', b :: q' =>
      match String.compare a b with
      | Lt => true
      | Gt => false
      | Eq => leb p' q'
      end
  end.

Definition le (p q : t) : Prop := leb p q = true.

Global Instance le_dec : RelDecision le.
Proof. intros p q. unfold le. apply _. Defined.

(** [sorted(paths)]. *)
Definition sorted (paths : list t) : list t := merge_sort le paths.

End Path.

Infix "//" := Path.child (at level 40, left associativity).

(* ================================================================== *)
(** * The world and the command monad *)

Inductive Exn : Type :=
| TaskCliError (msg : string)
| AcceptanceError (msg : string)
| SystemExit (code : Z)
| OtherError (kind msg : string).

Inductive Outcome (A : Type) : Type :=
| Return (a : A)
| Raise (e : Exn).
Arguments Return {A} a.
Arguments Raise {A} e.

(** The calls through which a command can change the repository. *)
Inductive Call : Type :=
| Mkdir (dir : Path.t)
| WriteText (file : Path.t) (content : string)
| RunGit (args : list string) (cwd : Path.t)
| PerformAcceptance (feature mode : string) (actor : option string)
    (tests : list string) (auto_commit : bool).

Record World : Type := mkWorld {
  calls : list Call;
  stdout : list string;
  stderr : list string
}.

Definition M (A : Type) : Type := World -> Outcome A * World.

Global Instance M_ret : MRet M := fun A a w => (Return a, w).

Global Instance M_bind : MBind M := fun A B f m w =>
  match m w with
  | (Return a, w') => f a w'
  | (Raise e, w') => (Raise e, w')
  end.

Definition raise {A : Type} (e : Exn) : M A := fun w => (Raise e, w).

(** [sys.exit(code)]. *)
Definition sys_exit {A : Type} (code : Z) : M A := raise (SystemExit code).

(** A helper that inspects the repository and may raise. *)
Definition ask {A : Type} (f : World -> Outcome A) : M A := fun w => (f w, w).

(** A helper that inspects the repository and always answers. *)
Definition asks {A : Type} (f : World -> A) : M A := fun w => (Return (f w), w).

Definition lift {A : Type} (o : Outcome A) : M A := fun w => (o, w).

Definition lift_option {A : Type} (e : Exn) (o : option A) : M A :=
  match o with
  | Some a => mret a
  | None => raise e
  end.

Definition record (c : Call) : M unit := fun w =>
  (Return tt, mkWorld (calls w ++ [c]) (stdout w) (stderr w)).

Definition print (line : string) : M unit := fun w =>
  (Return tt, mkWorld (calls w) (stdout w ++ [line]) (stderr w)).

(** [print(line, file=sys.stderr)]. *)
Definition eprint (line : string) : M unit := fun w =>
  (Return tt, mkWorld (calls w) (stdout w) (stderr w ++ [line])).

(** [for item in items: body], threading the variables the body assigns. *)
Fixpoint for_each {A S : Type} (items : list A) (body : S -> A -> M S) (s : S) : M S :=
  match items with
  | [] => mret s
  | item :: rest => s' ← body s item; for_each rest body s'
  end.

Definition print_lines (lines : list string) : M unit :=
  for_each lines (fun _ line => print line) tt.

(** [try: body except AcceptanceError as exc: handler]. *)
Definition except_AcceptanceError {A : Type} (body : M A) (handler : string -> M A) : M A :=
  fun w =>
    match body w with
    | (Raise (AcceptanceError msg), w') => handler msg w'
    | r => r
    end.

(** [try: body except TaskCliError as exc: handler]. *)
Definition except_TaskCliError {A : Type} (body : M A) (handler : string -> M A) : M A :=
  fun w =>
    match body w with
    | (Raise (TaskCliError msg), w') => handler msg w'
    | r => r
    end.

(* ================================================================== *)
(** * What the commands import *)

(** [WorkPackage] of task_helpers.py; the frontmatter, body and padding are
    those of [split_frontmatter]. *)
Record WorkPackage : Type := mkWorkPackage {
  wp_feature : string;
  wp_path : Path.t;
  wp_current_lane : string;
  wp_relative_subpath : Path.t;
  wp_frontmatter : option string;
  wp_body : string;
  wp_padding : string
}.

Definition with_frontmatter (fm : option string) (wp : WorkPackage) : WorkPackage :=
  mkWorkPackage (wp_feature wp) (wp_path wp) (wp_current_lane wp)
    (wp_relative_subpath wp) fm (wp_body wp) (wp_padding wp).

(** The platform under the commands: the file system as pathlib shows it,
    and whether a call fails. *)
Record Os : Type := mkOs {
  resolve : Path.t -> Path.t;
  path_exists : Path.t -> World -> bool;
  rglob_md : Path.t -> World -> list Path.t;
  read_text : Path.t -> World -> Outcome string;
  call_error : Call -> World -> option Exn
}.

(** The names imported from task_helpers.py whose code is not at hand.
    [work_package_id] to [shell_pid] are the properties of a [WorkPackage]. *)
Record TaskHelpers : Type := mkTaskHelpers {
  LANES : list string;
  find_repo_root : World -> Outcome Path.t;
  locate_work_package : Path.t -> string -> string -> World -> Outcome WorkPackage;
  ensure_lane : string -> Outcome string;
  git_status_lines : Path.t -> World -> Outcome (list string);
  detect_conflicting_wp_status : list string -> string -> Path.t -> Path.t -> list string;
  normalize_note : option string -> string -> string;
  now_utc : World -> string;
  set_scalar : option string -> string -> string -> option string;
  work_package_id : WorkPackage -> option string;
  title : WorkPackage -> option string;
  assignee : WorkPackage -> option string;
  agent : WorkPackage -> option string;
  shell_pid : WorkPackage -> option string
}.

(** [AcceptanceSummary] of acceptance_support.py, as far as the commands
    read it; [as_outstanding] is the result of [summary.outstanding()], a
    dict in insertion order. *)
Record AcceptanceSummary : Type := mkSummary {
  as_feature : string;
  as_branch : option string;
  as_worktree_root : string;
  as_lanes : gmap string (list string);
  as_outstanding : list (string * list string);
  as_optional_missing : list string;
  as_ok : bool
}.

(** [AcceptanceResult] of acceptance_support.py, as far as the commands read
    it. *)
Record AcceptanceResult : Type := mkResult {
  ar_accepted_at : string;
  ar_accepted_by : string;
  ar_accept_commit : option string;
  ar_parent_commit : option string;
  ar_notes : list string;
  ar_instructions : list string;
  ar_cleanup_instructions : list string
}.

(** The names imported from acceptance_support.py whose code is not at hand,
    and [json.dumps(x.to_dict(), indent=2)] for its two classes.
    [acceptance_report] is what [perform_acceptance] returns or raises for
    its arguments in a repository. *)
Record AcceptanceSupport : Type := mkAcceptanceSupport {
  choose_mode : string -> Path.t -> World -> string;
  collect_feature_summary : Path.t -> string -> bool -> World -> Outcome AcceptanceSummary;
  detect_feature_slug : Path.t -> World -> Outcome string;
  summary_json : AcceptanceSummary -> string;
  result_json : AcceptanceResult -> string;
  acceptance_report :
    AcceptanceSummary -> string -> option string -> list string -> bool -> World ->
    Outcome AcceptanceResult
}.

(* ================================================================== *)
(** * Command-line arguments *)

Record MoveArgs : Type := mkMoveArgs {
  ma_feature : string;
  ma_work_package : string;
  ma_lane : string;
  ma_note : option string;
  ma_agent : option string;
  ma_assignee : option string;
  ma_shell_pid : option string;
  ma_timestamp : option string;
  ma_dry_run : bool;
  ma_force : bool
}.

Record HistoryArgs : Type := mkHistoryArgs {
  ha_feature : string;
  ha_work_package : string;
  ha_note : string;
  ha_lane : option string;
  ha_agent : option string;
  ha_assignee : option string;
  ha_shell_pid : option string;
  ha_update_shell : bool;
  ha_timestamp : option string;
  ha_dry_run : bool
}.

Record ListArgs : Type := mkListArgs {
  la_feature : string
}.

Record RollbackArgs : Type := mkRollbackArgs {
  ra_feature : string;
  ra_work_package : string;
  ra_note : option string;
  ra_agent : option string;
  ra_assignee : option string;
  ra_shell_pid : option string;
  ra_timestamp : option string;
  ra_dry_run : bool;
  ra_force : bool
}.

Record StatusArgs : Type := mkStatusArgs {
  sa_feature : option string;
  sa_json : bool;
  sa_lenient : bool
}.

Record AcceptArgs : Type := mkAcceptArgs {
  aa_feature : option string;
  aa_mode : string;
  aa_actor : option string;
  aa_test : option (list string);
  aa_json : bool;
  aa_lenient : bool;
  aa_no_commit : bool;
  aa_allow_fail : bool
}.

(** One row of the [list] table. *)
Record Row : Type := mkRow {
  row_lane : string;
  row_id : string;
  row_title : string;
  row_assignee : string;
  row_agent : string;
  row_path : string
}.

(* ================================================================== *)
(** * The commands *)

Section Commands.

Context (os : Os) (th : TaskHelpers) (acc : AcceptanceSupport).

(** A call that changes the repository: it is recorded, and fails when the
    platform says so. *)
Definition perform (c : Call) : M unit := fun w =>
  let w' := mkWorld (calls w ++ [c]) (stdout w) (stderr w) in
  match call_error os c w with
  | Some e => (Raise e, w')
  | None => (Return tt, w')
  end.

(** [target_dir.mkdir(parents=True, exist_ok=True)]. *)
Definition mkdir (dir : Path.t) : M unit := perform (Mkdir dir).

(** [path.write_text(content, encoding="utf-8")]. *)
Definition write_text (file : Path.t) (content : string) : M unit :=
  perform (WriteText file content).

(** [run_git(args, cwd=cwd, check=True)]. *)
Definition run_git (args : list string) (cwd : Path.t) : M unit :=
  perform (RunGit args cwd).

(** [p.relative_to(root)] with its [ValueError]. *)
Definition relative_to (p root : Path.t) : M Path.t :=
  lift_option
    (OtherError "ValueError" (Path.str p +:+ " is not in the subpath of " +:+ Path.str root))
    (Path.relative_to p root).

(** [given or now_utc()] in the world [w]: the clock is read only when no
    timestamp is given. *)
Definition timestamp_or_now (given : option string) (w : World) : string :=
  if truthy given then py_or_str given "" else now_utc th w.

Definition or_now (given : option string) : M string :=
  asks (timestamp_or_now given).

(** [given or wp.agent or "system"]. *)
Definition agent_or_default (given : option string) (wp : WorkPackage) : string :=
  py_or_str (py_or given (agent th wp)) "system".

(** [given or wp.shell_pid or ""]. *)
Definition shell_pid_or_default (given : option string) (wp : WorkPackage) : string :=
  py_or_str (py_or given (shell_pid th wp)) "".

(** [wp.work_package_id or wp.path.name]. *)
Definition display_name (wp : WorkPackage) : string :=
  py_or_str (work_package_id th wp) (Path.name (wp_path wp)).

(** The directory of a lane of a feature:
    [repo_root / "kitty-specs" / feature / "tasks" / lane]. *)
Definition lane_dir (repo_root : Path.t) (feature lane : string) : Path.t :=
  repo_root // "kitty-specs" // feature // "tasks" // lane.

(** The frontmatter [stage_move] leaves in the work package: [lane] and
    [agent] are set, and [shell_pid] when it is not empty. *)
Definition moved_frontmatter (frontmatter : option string)
    (target_lane agent shell_pid : string) : option string :=
  let frontmatter := set_scalar th frontmatter "lane" target_lane in
  let frontmatter := set_scalar th frontmatter "agent" agent in
  if String.eqb shell_pid "" then frontmatter
  else set_scalar th frontmatter "shell_pid" shell_pid.

(** [stage_move]; the work package it has updated in place is returned next
    to the new path. *)
Definition stage_move (repo_root : Path.t) (wp : WorkPackage)
    (target_lane agent shell_pid note timestamp : string) (dry_run : bool)
    : M (Path.t * WorkPackage) :=
  let target_dir := lane_dir repo_root (wp_feature wp) target_lane in
  let new_path := resolve os (Path.join target_dir (wp_relative_subpath wp)) in
  if dry_run then mret (new_path, wp) else
  mkdir target_dir;;
  let wp := with_frontmatter
              (moved_frontmatter (wp_frontmatter wp) target_lane agent shell_pid) wp in
  let log_entry := ActivityLog.log_entry timestamp agent shell_pid target_lane note in
  let new_body := ActivityLog.append_activity_log (wp_body wp) log_entry in
  let new_content := Document.build_document (wp_frontmatter wp) new_body (wp_padding wp) in
  write_text new_path new_content;;
  new_rel ← relative_to new_path repo_root;
  run_git ["add"; Path.str new_rel] repo_root;;
  (if bool_decide (resolve os (wp_path wp) = resolve os new_path) then mret tt
   else
     old_rel ← relative_to (wp_path wp) repo_root;
     run_git ["rm"; "--quiet"; Path.str old_rel] repo_root);;
  mret (new_path, wp).

(** What [move_command] prints once [stage_move] has returned. *)
Definition move_report (args : MoveArgs) (repo_root : Path.t)
    (agent shell_pid note timestamp : string)
    (staged : Path.t * WorkPackage) : M unit :=
  let '(new_file_path, wp) := staged in
  if ma_dry_run args then
    print ("[dry-run] Would move " +:+ display_name wp +:+ " to lane '" +:+ ma_lane args +:+ "'");;
    new_rel ← relative_to new_file_path repo_root;
    print ("[dry-run] New path: " +:+ Path.str new_rel)
  else
    print ("✅ Moved " +:+ display_name wp +:+ " → " +:+ ma_lane args);;
    old_rel ← relative_to (wp_path wp) repo_root;
    new_rel ← relative_to new_file_path repo_root;
    print ("   " +:+ Path.str old_rel +:+ " → " +:+ Path.str new_rel);;
    print ("   Logged: " +:+ ActivityLog.log_entry timestamp agent shell_pid (ma_lane args) note).

(** The message of the error [move_command] raises on conflicts. *)
Definition conflict_message (conflicts : list string) : string :=
  let conflict_display := Str.join Str.NL conflicts in
  "Other work-package files are staged or modified:" +:+ Str.NL
  +:+ conflict_display +:+ Str.NL +:+ Str.NL
  +:+ "Clear or commit these changes, or re-run with --force.".

Definition move_command (args : MoveArgs) : M unit :=
  repo_root ← ask (find_repo_root th);
  let feature := ma_feature args in
  wp ← ask (locate_work_package th repo_root feature (ma_work_package args));
  if String.eqb (wp_current_lane wp) (ma_lane args) then
    raise (TaskCliError ("Work package already in lane '" +:+ ma_lane args +:+ "'."))
  else
  timestamp ← or_now (ma_timestamp args);
  let agent := agent_or_default (ma_agent args) wp in
  let shell_pid := shell_pid_or_default (ma_shell_pid args) wp in
  let note := normalize_note th (ma_note args) (ma_lane args) in
  status_lines ← ask (git_status_lines th repo_root);
  let new_path :=
    Path.join (lane_dir repo_root feature (ma_lane args)) (wp_relative_subpath wp) in
  old_rel ← relative_to (wp_path wp) repo_root;
  new_rel ← relative_to new_path repo_root;
  let conflicts := detect_conflicting_wp_status th status_lines feature old_rel new_rel in
  if negb (bool_decide (conflicts = [])) && negb (ma_force args) then
    raise (TaskCliError (conflict_message conflicts))
  else
  staged ← stage_move repo_root wp (ma_lane args) agent shell_pid note timestamp
             (ma_dry_run args);
  move_report args repo_root agent shell_pid note timestamp staged.

Definition history_command (args : HistoryArgs) : M unit :=
  repo_root ← ask (find_repo_root th);
  wp ← ask (locate_work_package th repo_root (ha_feature args) (ha_work_package args));
  let agent := agent_or_default (ha_agent args) wp in
  let shell_pid := shell_pid_or_default (ha_shell_pid args) wp in
  lane ← lift (ensure_lane th (py_or_str (ha_lane args) (wp_current_lane wp)));
  timestamp ← or_now (ha_timestamp args);
  let note := normalize_note th (Some (ha_note args)) lane in
  let wp :=
    if String.eqb lane (wp_current_lane wp) then wp
    else with_frontmatter (set_scalar th (wp_frontmatter wp) "lane" lane) wp in
  let log_entry := ActivityLog.log_entry timestamp agent shell_pid lane note in
  let updated_body := ActivityLog.append_activity_log (wp_body wp) log_entry in
  let wp :=
    if ha_update_shell args && negb (String.eqb shell_pid "")
    then with_frontmatter (set_scalar th (wp_frontmatter wp) "shell_pid" shell_pid) wp
    else wp in
  let wp :=
    match ha_assignee args with
    | Some a => with_frontmatter (set_scalar th (wp_frontmatter wp) "assignee" a) wp
    | None => wp
    end in
  let wp :=
    if truthy (ha_agent args)
    then with_frontmatter (set_scalar th (wp_frontmatter wp) "agent" agent) wp
    else wp in
  if ha_dry_run args then
    print ("[dry-run] Would append activity entry: " +:+ log_entry)
  else
  let new_content := Document.build_document (wp_frontmatter wp) updated_body (wp_padding wp) in
  write_text (wp_path wp) new_content;;
  rel ← relative_to (wp_path wp) repo_root;
  run_git ["add"; Path.str rel] repo_root;;
  print ("📝 Appended activity for " +:+ display_name wp);;
  print ("   " +:+ log_entry).

(** The row of [list_command] for the markdown file [path] of a lane, whose
    text is [text]; [sub] is the path relative to the lane's directory and
    [rel] the path relative to the repository. *)
Definition make_row (args : ListArgs) (lane : string) (path sub rel : Path.t)
    (text : string) : Row :=
  let '(front, body, padding) := Document.split_frontmatter text in
  let wp := mkWorkPackage (la_feature args) path lane sub front body padding in
  let wp_id := py_or_str (work_package_id th wp) (Path.stem path) in
  let title := Str.strip_char Str.QUOTE (py_or_str (title th wp) "") in
  let assignee := Str.strip (py_or_str (assignee th wp) "") in
  let agent := Str.strip (py_or_str (agent th wp) "") in
  mkRow lane wp_id title assignee agent (Path.str rel).

(** The body of [for path in sorted(lane_dir.rglob("*.md"))] in
    [list_command]: one row is appended. *)
Definition list_row (args : ListArgs) (repo_root lane_dir : Path.t) (lane : string)
    (rows : list Row) (path : Path.t) : M (list Row) :=
  text ← ask (read_text os path);
  sub ← relative_to path lane_dir;
  rel ← relative_to path repo_root;
  mret (rows ++ [make_row args lane path sub rel text]).

(** The body of [for lane in LANES] in [list_command]. *)
Definition list_lane (args : ListArgs) (repo_root feature_dir : Path.t)
    (rows : list Row) (lane : string) : M (list Row) :=
  let lane_dir := feature_dir // lane in
  ex ← asks (path_exists os lane_dir);
  if negb ex then mret rows else
  paths ← asks (rglob_md os lane_dir);
  for_each (Path.sorted paths) (list_row args repo_root lane_dir lane) rows.

(** [max(len(row[key]) for row in rows)]. *)
Definition max_len (key : Row -> string) (rows : list Row) : nat :=
  foldr (fun row m => Nat.max (Str.len (key row)) m) 0 rows.

(** [any(row[key] for row in rows)]. *)
Definition any_nonempty (key : Row -> string) (rows : list Row) : bool :=
  existsb (fun row => negb (String.eqb (key row) "")) rows.

(** The table [list_command] prints for a non-empty list of rows. *)
Definition list_table (rows : list Row) : list string :=
  let width_id := max_len row_id rows in
  let width_lane := max_len row_lane rows in
  let width_agent := if any_nonempty row_agent rows then max_len row_agent rows else 5 in
  let width_assignee :=
    if any_nonempty row_assignee rows then max_len row_assignee rows else 8 in
  let header :=
    Str.ljust "Lane" width_lane +:+ "  " +:+ Str.ljust "WP" width_id +:+ "  "
    +:+ Str.ljust "Agent" width_agent +:+ "  "
    +:+ Str.ljust "Assignee" width_assignee +:+ "  " +:+ "Title" in
  header
  :: Str.times "-" (Str.len header)
  :: map (fun row =>
       Str.ljust (row_lane row) width_lane +:+ "  "
       +:+ Str.ljust (row_id row) width_id +:+ "  "
       +:+ Str.ljust (row_agent row) width_agent +:+ "  "
       +:+ Str.ljust (row_assignee row) width_assignee +:+ "  "
       +:+ row_title row +:+ " (" +:+ row_path row +:+ ")") rows.

Definition list_command (args : ListArgs) : M unit :=
  repo_root ← ask (find_repo_root th);
  let feature_dir := repo_root // "kitty-specs" // la_feature args // "tasks" in
  ex ← asks (path_exists os feature_dir);
  if negb ex then
    raise (TaskCliError ("Feature '" +:+ la_feature args
                         +:+ "' has no tasks directory at " +:+ Path.str feature_dir +:+ "."))
  else
  rows ← for_each (LANES th) (list_lane args repo_root feature_dir) [];
  match rows with
  | [] => print ("No work packages found for feature '" +:+ la_feature args +:+ "'.")
  | _ => print_lines (list_table rows)
  end.

(** [entries[-k]] with its [IndexError]. *)
Definition from_end {A : Type} (entries : list A) (k : nat) : M A :=
  lift_option (OtherError "IndexError" "list index out of range")
    (if length entries <? k then None else entries !! (length entries - k)).

Definition rollback_command (args : RollbackArgs) : M unit :=
  repo_root ← ask (find_repo_root th);
  wp ← ask (locate_work_package th repo_root (ra_feature args) (ra_work_package args));
  let entries := ActivityLog.activity_entries (wp_body wp) in
  if length entries <? 2 then
    raise (TaskCliError "Not enough activity entries to determine the previous lane.")
  else
  before_last ← from_end entries 2;
  previous_lane ← lift (ensure_lane th (ActivityLog.lane before_last));
  let note := py_or_str (ra_note args) ("Rolled back to " +:+ previous_lane) in
  last ← from_end entries 1;
  let agent := py_or_str (ra_agent args) (ActivityLog.agent last) in
  let shell_pid := py_or_str (ra_shell_pid args) (default "" (ActivityLog.shell_pid last)) in
  timestamp ← or_now (ra_timestamp args);
  move_command
    (mkMoveArgs (ra_feature args) (ra_work_package args) previous_lane (Some note)
       (Some agent) (ra_assignee args) (Some shell_pid) (Some timestamp)
       (ra_dry_run args) (ra_force args)).

Definition _resolve_feature (repo_root : Path.t) (requested : option string) : M string :=
  if truthy requested then mret (py_or_str requested "")
  else ask (detect_feature_slug acc repo_root).

(** The line of one lane in [_summary_to_text]. *)
Definition lane_line (summary : AcceptanceSummary) (lane : string) : string :=
  let items := default [] (as_lanes summary !! lane) in
  "  " +:+ lane +:+ " (" +:+ pretty (length items) +:+ "): "
  +:+ (match items with [] => "-" | _ => Str.join ", " items end).

Definition _summary_to_text (summary : AcceptanceSummary) : list string :=
  let lines := [] in
  let lines := lines ++ ["Feature: " +:+ as_feature summary] in
  let lines := lines ++ ["Branch: " +:+ py_or_str (as_branch summary) "N/A"] in
  let lines := lines ++ ["Worktree: " +:+ as_worktree_root summary] in
  let lines := lines ++ [""] in
  let lines := lines ++ ["Work packages by lane:"] in
  let lines := fold_left (fun lines lane => lines ++ [lane_line summary lane]) (LANES th) lines in
  let lines := lines ++ [""] in
  let outstanding := as_outstanding summary in
  let lines :=
    match outstanding with
    | [] => lines ++ ["All acceptance checks passed."]
    | _ =>
        fold_left
          (fun lines '(key, values) =>
             fold_left (fun lines value => lines ++ ["    - " +:+ value]) values
               (lines ++ ["  " +:+ key +:+ ":"]))
          outstanding (lines ++ ["Outstanding items:"])
    end in
  match as_optional_missing summary with
  | [] => lines
  | missing =>
      (lines ++ [""]) ++ ["Optional artifacts missing: " +:+ Str.join ", " missing]
  end.

Definition status_command (args : StatusArgs) : M unit :=
  repo_root ← ask (find_repo_root th);
  feature ← _resolve_feature repo_root (sa_feature args);
  summary ← ask (collect_feature_summary acc repo_root feature (negb (sa_lenient args)));
  if sa_json args then print (summary_json acc summary)
  else print_lines (_summary_to_text summary).

Definition verify_command (args : StatusArgs) : M unit :=
  repo_root ← ask (find_repo_root th);
  feature ← _resolve_feature repo_root (sa_feature args);
  summary ← ask (collect_feature_summary acc repo_root feature (negb (sa_lenient args)));
  if sa_json args then
    print (summary_json acc summary);;
    sys_exit (if as_ok summary then 0 else 1)%Z
  else
  print_lines (_summary_to_text summary);;
  sys_exit (if as_ok summary then 0 else 1)%Z.

(** Modelled from the spec: [perform_acceptance] of acceptance_support.py,
    which is not part of the sources at hand.  It is the step of the spec's
    Acceptance Workflow that executes the commit/PR-style finalization and
    records the finalizing commit.  Here it is one call that changes the
    repository, recorded with the arguments [accept_command] hands it; what
    it returns or raises is the repository's to say. *)
Definition perform_acceptance (summary : AcceptanceSummary) (mode : string)
    (actor : option string) (tests : list string) (auto_commit : bool)
    : M AcceptanceResult :=
  perform (PerformAcceptance (as_feature summary) mode actor tests auto_commit);;
  ask (acceptance_report acc summary mode actor tests auto_commit).

(** [if xs: print(heading); for x in xs: print(f"  {prefix}{x}")]. *)
Definition print_section (heading prefix : string) (items : list string) : M unit :=
  match items with
  | [] => mret tt
  | _ => print heading;; print_lines (map (fun item => prefix +:+ item) items)
  end.

(** What [accept_command] prints for the result of the acceptance. *)
Definition accept_report (args : AcceptArgs) (feature : string) (result : AcceptanceResult)
    : M unit :=
  if aa_json args then print (result_json acc result) else
  print ("✅ Feature '" +:+ feature +:+ "' accepted at " +:+ ar_accepted_at result
         +:+ " by " +:+ ar_accepted_by result);;
  (if truthy (ar_accept_commit result)
   then print ("   Acceptance commit: " +:+ py_or_str (ar_accept_commit result) "")
   else mret tt);;
  (if truthy (ar_parent_commit result)
   then print ("   Parent commit: " +:+ py_or_str (ar_parent_commit result) "")
   else mret tt);;
  print_section (Str.NL +:+ "Notes:") "  " (ar_notes result);;
  print (Str.NL +:+ "Next steps:");;
  print_lines (map (fun instruction => "  - " +:+ instruction) (ar_instructions result));;
  print_section (Str.NL +:+ "Cleanup:") "  - " (ar_cleanup_instructions result).

Definition accept_command (args : AcceptArgs) : M unit :=
  repo_root ← ask (find_repo_root th);
  feature ← _resolve_feature repo_root (aa_feature args);
  summary ← ask (collect_feature_summary acc repo_root feature (negb (aa_lenient args)));
  if String.eqb (aa_mode args) "checklist" then
    (if aa_json args then print (summary_json acc summary)
     else print_lines (_summary_to_text summary));;
    sys_exit (if as_ok summary then 0 else 1)%Z
  else
  mode ← asks (choose_mode acc (aa_mode args) repo_root);
  let tests := default [] (aa_test args) in
  if negb (as_ok summary) && negb (aa_allow_fail args) then
    print_lines (_summary_to_text summary);;
    print (Str.NL +:+ "❌ Outstanding items detected. Fix them or re-run with --allow-fail for checklist mode.");;
    sys_exit 1%Z
  else
  result ← except_AcceptanceError
    (perform_acceptance summary mode (aa_actor args) tests (negb (aa_no_commit args)))
    (fun exc => eprint ("Error: " +:+ exc);; sys_exit 1%Z);
  accept_report args feature result.

(** The parsed command line. *)
Inductive Command : Type :=
| CmdMove (args : MoveArgs)
| CmdHistory (args : HistoryArgs)
| CmdList (args : ListArgs)
| CmdRollback (args : RollbackArgs)
| CmdStatus (args : StatusArgs)
| CmdVerify (args : StatusArgs)
| CmdAccept (args : AcceptArgs).

(** [main], from the parsed command line on; the result is the exit code. *)
Definition main (command : Command) : M Z :=
  except_TaskCliError
    (match command with
     | CmdMove args => move_command args
     | CmdHistory args => history_command args
     | CmdList args => list_command args
     | CmdRollback args => rollback_command args
     | CmdStatus args => status_command args
     | CmdVerify args => verify_command args
     | CmdAccept args => accept_command args
     end;;
     mret 0%Z)
    (fun exc => eprint ("Error: " +:+ exc);; mret 1%Z).

End Commands.

(* ================================================================== *)
(** * Notions used to state what the commands do *)

(** The world once [record] has noted a call. *)
Definition noted (c : Call) (w : World) : World :=
  mkWorld (calls w ++ [c]) (stdout w) (stderr w).

(** A computation is quiet when it makes no call that can change the
    repository, whatever its outcome. *)
Definition quiet {A : Type} (m : M A) : Prop :=
  forall w, calls (snd (m w)) = calls w.

(** The calls a computation makes are added after those already made. *)
Definition extending {A : Type} (m : M A) : Prop :=
  forall w, exists more, calls (snd (m w)) = calls w ++ more.

(** The lines [_summary_to_text] writes for the outstanding items. *)
Definition outstanding_lines (outstanding : list (string * list string)) : list string :=
  flat_map (fun '(key, values) =>
              ("  " +:+ key +:+ ":") :: map (fun value => "    - " +:+ value) values)
    outstanding.

(** [row] is the row of the markdown file [path] of the lane [lane], read in
    the world [w]. *)
Definition row_of (os : Os) (th : TaskHelpers) (args : ListArgs) (w : World)
    (repo_root feature_dir : Path.t)
    (row : Row) (file : string * Path.t) : Prop :=
  let '(lane, path) := file in
  exists text sub rel,
    read_text os path w = Return text
    /\ Path.relative_to path (feature_dir // lane) = Some sub
    /\ Path.relative_to path repo_root = Some rel
    /\ row = make_row th args lane path sub rel text.

(** The markdown files of a lane in the world [w], each with its lane: none
    when the lane has no directory, else those found under it, sorted. *)
Definition lane_files (os : Os) (w : World) (feature_dir : Path.t) (lane : string)
    : list (string * Path.t) :=
  if path_exists os (feature_dir // lane) w
  then map (pair lane) (Path.sorted (rglob_md os (feature_dir // lane) w))
  else [].

(* ================================================================== *)
(** * A small repository to run the commands on *)

Module Demo.

Definition repo : Path.t := ["/"; "repo"].

Definition tasks : Path.t := repo // "kitty-specs" // "001-demo" // "tasks".

Definition wp01_path : Path.t := tasks // "planned" // "WP01.md".
Definition wp02_path : Path.t := tasks // "planned" // "WP02.md".
Definition wp03_path : Path.t := tasks // "doing" // "WP03.md".

(** The lines of the frontmatter of a work package. *)
Definition front_lines (id lane agent : string) : list string :=
  ["work_package_id: " +:+ id;
   "title: " +:+ String Str.QUOTE ("Package " +:+ id) +:+ String Str.QUOTE "";
   "lane: " +:+ lane; "agent: " +:+ agent].

(** The text of a work package: frontmatter, a title, and a log. *)
Definition document (front : list string) (id : string) (log : list string) : string :=
  Str.join Str.NL
    (["---"] ++ front ++ ["---"; ""; "# " +:+ id; ""; "## Activity Log"; ""] ++ log ++ [""]).

Definition wp_text (id lane agent : string) (log : list string) : string :=
  document (front_lines id lane agent) id log.

Definition wp01_text : string :=
  wp_text "WP01" "planned" "robin"
    ["- 2025-01-01T00:00:00Z – system – shell_pid= – lane=planned – Created"].

Definition wp02_text : string :=
  wp_text "WP02" "planned" "" [].

Definition wp03_text : string :=
  wp_text "WP03" "doing" "codex"
    ["- 2025-01-01T00:00:00Z – system – shell_pid= – lane=planned – Created";
     "- 2025-01-01T08:00:00Z – codex – shell_pid=77 – lane=doing – Started"].

Definition work_package (path : Path.t) (lane name text : string) : WorkPackage :=
  let '(front, body, padding) := Document.split_frontmatter text in
  mkWorkPackage "001-demo" path lane [name] front body padding.

Definition wp01 : WorkPackage := work_package wp01_path "planned" "WP01.md" wp01_text.
Definition wp03 : WorkPackage := work_package wp03_path "doing" "WP03.md" wp03_text.

(** The value of [key] in a frontmatter of [key: value] lines. *)
Definition scalar (key : string) (frontmatter : option string) : option string :=
  head (omap (Str.strip_prefix (key +:+ ": ")) (Str.split_lines (default "" frontmatter))).

(** The frontmatter with [key] set to [value]: its line is replaced, or
    added at the end. *)
Definition put_scalar (frontmatter : option string) (key value : string) : option string :=
  let line := key +:+ ": " +:+ value in
  let lines := match frontmatter with Some text => Str.split_lines text | None => [] end in
  let is_key l := bool_decide (is_Some (Str.strip_prefix (key +:+ ": ") l)) in
  Some (Str.join Str.NL
          (if existsb is_key lines
           then map (fun l => if is_key l then line else l) lines
           else lines ++ [line])).

Definition lanes : list string := ["planned"; "doing"; "for_review"; "done"].

(** The path of a line of [git status --porcelain]. *)
Definition status_path (line : string) : string :=
  String.substring 3 (String.length line - 3) line.

(** The helpers over this repository, whose git status shows the lines
    [status]. *)
Definition helpers (status : list string) : TaskHelpers := {|
  LANES := lanes;
  find_repo_root := fun _ => Return repo;
  locate_work_package := fun _ feature id _ =>
    if String.eqb feature "001-demo" && String.eqb id "WP01" then Return wp01
    else if String.eqb feature "001-demo" && String.eqb id "WP03" then Return wp03
    else Raise (TaskCliError ("Work package '" +:+ id +:+ "' not found."));
  ensure_lane := fun lane =>
    if bool_decide (lane ∈ lanes) then Return lane
    else Raise (TaskCliError ("Invalid lane '" +:+ lane +:+ "'."));
  git_status_lines := fun _ _ => Return status;
  detect_conflicting_wp_status := fun status_lines feature old_path new_path =>
    filter (fun line =>
              is_Some (Str.strip_prefix ("kitty-specs/" +:+ feature +:+ "/tasks/")
                         (status_path line))
              /\ status_path line <> Path.str old_path
              /\ status_path line <> Path.str new_path) status_lines;
  normalize_note := fun note lane => py_or_str note ("Moved to " +:+ lane);
  now_utc := fun _ => "2025-01-02T03:04:05Z";
  set_scalar := put_scalar;
  work_package_id := fun wp => scalar "work_package_id" (wp_frontmatter wp);
  title := fun wp => scalar "title" (wp_frontmatter wp);
  assignee := fun wp => scalar "assignee" (wp_frontmatter wp);
  agent := fun wp => scalar "agent" (wp_frontmatter wp);
  shell_pid := fun wp => scalar "shell_pid" (wp_frontmatter wp)
|}.

(** The platform: two lanes have a directory, and no call fails. *)
Definition os : Os := {|
  resolve := fun p => p;
  path_exists := fun p _ =>
    bool_decide (p ∈ [tasks; tasks // "planned"; tasks // "doing"]);
  rglob_md := fun dir _ =>
    if bool_decide (dir = tasks // "planned") then [wp02_path; wp01_path]
    else if bool_decide (dir = tasks // "doing") then [wp03_path]
    else [];
  read_text := fun p _ =>
    if bool_decide (p = wp01_path) then Return wp01_text
    else if bool_decide (p = wp02_path) then Return wp02_text
    else if bool_decide (p = wp03_path) then Return wp03_text
    else Raise (OtherError "FileNotFoundError" (Path.str p));
  call_error := fun _ _ => None
|}.

Definition summary (ok : bool) : AcceptanceSummary := {|
  as_feature := "001-demo";
  as_branch := Some "001-demo";
  as_worktree_root := "/repo";
  as_lanes := {[ "planned" := ["WP01"; "WP02"] ]} ∪ {[ "doing" := ["WP03"] ]};
  as_outstanding :=
    if ok then [] else [("planned", ["WP01"; "WP02"]); ("doing", ["WP03"])];
  as_optional_missing := [];
  as_ok := ok
|}.

Definition result : AcceptanceResult := {|
  ar_accepted_at := "2025-01-02T03:04:05Z";
  ar_accepted_by := "reviewer";
  ar_accept_commit := None;
  ar_parent_commit := Some "0123abc";
  ar_notes := [];
  ar_instructions := ["Merge the feature branch."];
  ar_cleanup_instructions := []
|}.

(** The acceptance support over this repository, whose summary is ok or
    not. *)
Definition acceptance (ok : bool) : AcceptanceSupport := {|
  choose_mode := fun preference _ _ =>
    if String.eqb preference "auto" then "local" else preference;
  collect_feature_summary := fun _ _ _ _ => Return (summary ok);
  detect_feature_slug := fun _ _ => Return "001-demo";
  summary_json := fun _ => "{}";
  result_json := fun _ => "{}";
  acceptance_report := fun _ _ _ _ auto_commit _ =>
    Return (if auto_commit
            then mkResult (ar_accepted_at result) (ar_accepted_by result) (Some "4567def")
                   (ar_parent_commit result) (ar_notes result) (ar_instructions result)
                   (ar_cleanup_instructions result)
            else result)
|}.

(** The world before a command: nothing called, nothing printed. *)
Definition start : World := mkWorld [] [] [].

Definition move_wp01 (lane : string) (dry_run force : bool) : MoveArgs :=
  mkMoveArgs "001-demo" "WP01" lane (Some "Started") None None (Some "4242")
    (Some "2025-01-02T03:04:05Z") dry_run force.

Definition history_wp01 (dry_run : bool) : HistoryArgs :=
  mkHistoryArgs "001-demo" "WP01" "Reviewed" None None None None false
    (Some "2025-01-02T03:04:05Z") dry_run.

Definition rollback_wp (id : string) : RollbackArgs :=
  mkRollbackArgs "001-demo" id None None None None (Some "2025-01-03T00:00:00Z") false false.

Definition accept (no_commit allow_fail : bool) : AcceptArgs :=
  mkAcceptArgs (Some "001-demo") "auto" (Some "reviewer") None false false
    no_commit allow_fail.

End Demo.

(* ================================================================== *)
(** * Further notions used to state what the commands do *)


(** The command [main] runs for a parsed command line. *)
Definition dispatch (os : Os) (th : TaskHelpers) (acc : AcceptanceSupport)
    (command : Command) : M unit :=
  match command with
  | CmdMove args => move_command os th args
  | CmdHistory args => history_command os th args
  | CmdList args => list_command os th args
  | CmdRollback args => rollback_command os th args
  | CmdStatus args => status_command th acc args
  | CmdVerify args => verify_command th acc args
  | CmdAccept args => accept_command os th acc args
  end.

(** The calls of a [stage_move] that is no dry run, when none fails: mkdir,
    write, then [git add] if the new path lies in the repository, then
    [git rm] if the old path is another file and lies in the repository. *)
Definition stage_move_steps (os : Os) (th : TaskHelpers) (repo_root : Path.t)
    (wp : WorkPackage) (target_lane agent shell_pid note timestamp : string) : list Call :=
  let target_dir := lane_dir repo_root (wp_feature wp) target_lane in
  let new_path := resolve os (Path.join target_dir (wp_relative_subpath wp)) in
  let frontmatter := moved_frontmatter th (wp_frontmatter wp) target_lane agent shell_pid in
  let new_body :=
    ActivityLog.append_activity_log (wp_body wp)
      (ActivityLog.log_entry timestamp agent shell_pid target_lane note) in
  [Mkdir target_dir;
   WriteText new_path (Document.build_document frontmatter new_body (wp_padding wp))]
  ++ match Path.relative_to new_path repo_root with
     | None => []
     | Some new_rel =>
         RunGit ["add"; Path.str new_rel] repo_root
         :: (if bool_decide (resolve os (wp_path wp) = resolve os new_path) then []
             else match Path.relative_to (wp_path wp) repo_root with
                  | None => []
                  | Some old_rel => [RunGit ["rm"; "--quiet"; Path.str old_rel] repo_root]
                  end)
     end.

(** The arguments of a move with another [--assignee]. *)
Definition with_assignee (assignee : option string) (args : MoveArgs) : MoveArgs :=
  mkMoveArgs (ma_feature args) (ma_work_package args) (ma_lane args) (ma_note args)
    (ma_agent args) assignee (ma_shell_pid args) (ma_timestamp args)
    (ma_dry_run args) (ma_force args).

(** The frontmatter [history_command] writes: the lane when it changes, the
    shell PID when asked to and not empty, the assignee when given, the
    agent when given. *)
Definition history_frontmatter (th : TaskHelpers) (args : HistoryArgs) (wp : WorkPackage)
    (lane : string) : option string :=
  let agent := agent_or_default th (ha_agent args) wp in
  let shell_pid := shell_pid_or_default th (ha_shell_pid args) wp in
  let fm := wp_frontmatter wp in
  let fm := if String.eqb lane (wp_current_lane wp) then fm
            else set_scalar th fm "lane" lane in
  let fm := if ha_update_shell args && negb (String.eqb shell_pid "")
            then set_scalar th fm "shell_pid" shell_pid else fm in
  let fm := match ha_assignee args with
            | Some a => set_scalar th fm "assignee" a
            | None => fm
            end in
  if truthy (ha_agent args) then set_scalar th fm "agent" agent else fm.

(** The width of the four padded columns of the [list] table and of the
    gaps after them: the column at which the titles start. *)
Definition title_column (rows : list Row) : nat :=
  max_len row_lane rows + 2 + (max_len row_id rows + 2)
  + ((if any_nonempty row_agent rows then max_len row_agent rows else 5) + 2)
  + ((if any_nonempty row_assignee rows then max_len row_assignee rows else 8) + 2).

(** More of the small repository. *)
Module DemoMore.

(** A platform on which the tasks directory exists and no lane has one. *)
Definition bare_os : Os := {|
  resolve := fun p => p;
  path_exists := fun p _ => bool_decide (p = Demo.tasks);
  rglob_md := fun _ _ => [];
  read_text := fun p _ => Raise (OtherError "FileNotFoundError" (Path.str p));
  call_error := fun _ _ => None
|}.

(** An acceptance support whose acceptance fails. *)
Definition failing_acceptance : AcceptanceSupport := {|
  choose_mode := choose_mode (Demo.acceptance true);
  collect_feature_summary := collect_feature_summary (Demo.acceptance true);
  detect_feature_slug := detect_feature_slug (Demo.acceptance true);
  summary_json := summary_json (Demo.acceptance true);
  result_json := result_json (Demo.acceptance true);
  acceptance_report := fun _ _ _ _ _ _ =>
    Raise (AcceptanceError "Working tree is dirty.")
|}.

Definition history_wp01_plain : HistoryArgs :=
  mkHistoryArgs "001-demo" "WP01" "Reviewed" None None None None false
    (Some "2025-01-02T03:04:05Z") false.

(** WP03 with a last entry that stays in its lane, as [history] writes. *)
Definition wp03_noted_text : string :=
  Demo.wp_text "WP03" "doing" "codex"
    ["- 2025-01-01T08:00:00Z – codex – shell_pid=77 – lane=doing – Started";
     "- 2025-01-01T09:00:00Z – codex – shell_pid=77 – lane=doing – Half way"].

Definition wp03_noted : WorkPackage :=
  Demo.work_package Demo.wp03_path "doing" "WP03.md" wp03_noted_text.

(** The helpers of the small repository, with WP03 as above. *)
Definition noted_helpers : TaskHelpers := {|
  LANES := LANES (Demo.helpers []);
  find_repo_root := find_repo_root (Demo.helpers []);
  locate_work_package := fun _ _ _ _ => Return wp03_noted;
  ensure_lane := ensure_lane (Demo.helpers []);
  git_status_lines := git_status_lines (Demo.helpers []);
  detect_conflicting_wp_status := detect_conflicting_wp_status (Demo.helpers []);
  normalize_note := normalize_note (Demo.helpers []);
  now_utc := now_utc (Demo.helpers []);
  set_scalar := set_scalar (Demo.helpers []);
  work_package_id := work_package_id (Demo.helpers []);
  title := title (Demo.helpers []);
  assignee := assignee (Demo.helpers []);
  agent := agent (Demo.helpers []);
  shell_pid := shell_pid (Demo.helpers [])
|}.

End DemoMore.

(* ================================================================== *)
(** * Lemmas on strings *)

Section StrFacts.
Import Str.


Lemma append_cons (x : ascii) (a b : string) :
  String x a +:+ b = String x (a +:+ b).
Proof. reflexivity. Qed.

Lemma append_assoc (a b c : string) : (a +:+ b) +:+ c = a +:+ b +:+ c.
Proof.
  induction a as [|x a IH]; [reflexivity|].
  now rewrite !append_cons, IH.
Qed.


Lemma strip_prefix_Some (p s rest : string) :
  strip_prefix p s = Some rest -> s = p +:+ rest.
Proof.
  revert s. induction p as [|a p IH]; intros s H; simpl in *.
  - now inversion H.
  - destruct s as [|b s]; [discriminate|].
    destruct (Ascii.eqb_spec a b) as [->|]; [|discriminate].
    rewrite append_cons. f_equal. now apply IH.
Qed.


Lemma partition_Some (sep s before rest : string) :
  partition sep s = Some (before, rest) -> s = before +:+ sep +:+ rest.
Proof.
  revert before. induction s as [|a s IH]; intros before H.
  - simpl in H. destruct (strip_prefix sep "") eqn:E; [|discriminate].
    inversion H; subst. now apply strip_prefix_Some in E.
  - cbn [partition] in H.
    destruct (strip_prefix sep (String a s)) eqn:E.
    + inversion H; subst. now apply strip_prefix_Some in E.
    + destruct (partition sep s) as [[b r]|] eqn:P; [|discriminate].
      inversion H; subst. rewrite append_cons. f_equal. now apply IH.
Qed.

Lemma span_newlines_app (s : string) :
  fst (span_newlines s) +:+ snd (span_newlines s) = s.
Proof.
  induction s as [|c s IH]; simpl; [reflexivity|].
  destruct (is_newline c); [|reflexivity].
  destruct (span_newlines s) as [nls rest]; simpl in *.
  now rewrite append_cons, IH.
Qed.

End StrFacts.

(* ================================================================== *)
(** * Document model: round trip *)

(** C2. Serializing the parse of any text gives the text back: for every
    [text], [build_document] applied to the frontmatter, body and padding
    that [split_frontmatter] returns for it is [text] itself. *)
Theorem split_build_roundtrip (text : string) :
  let '(front, body, padding) := Document.split_frontmatter text in
  Document.build_document front body padding = text.
Proof.
  unfold Document.split_frontmatter.
  destruct (Str.strip_prefix _ text) as [rest|] eqn:Hopen; [|reflexivity].
  destruct (Str.partition _ rest) as [[front tail]|] eqn:Hclose; [|reflexivity].
  pose proof (span_newlines_app tail) as Hpad.
  destruct (Str.span_newlines tail) as [padding body]; simpl in Hpad.
  apply strip_prefix_Some in Hopen. apply partition_Some in Hclose.
  unfold Document.build_document.
  rewrite Hpad, Hopen, Hclose. now rewrite !append_assoc.
Qed.

(** The parts of the text of a work package. *)
Example split_frontmatter_work_package :
  Document.split_frontmatter Demo.wp02_text
  = (Some (Str.join Str.NL
             ["work_package_id: WP02";
              "title: " +:+ String Str.QUOTE "Package WP02" +:+ String Str.QUOTE "";
              "lane: planned"; "agent: "]),
     Str.join Str.NL ["# WP02"; ""; "## Activity Log"; ""; ""],
     Str.NL +:+ Str.NL).
Proof. reflexivity. Qed.

(** A text that opens with no fence is all body. *)
Example split_frontmatter_no_fence :
  Document.split_frontmatter ("# Notes" +:+ Str.NL +:+ "---" +:+ Str.NL)
  = (None, "# Notes" +:+ Str.NL +:+ "---" +:+ Str.NL, "").
Proof. reflexivity. Qed.

(* ================================================================== *)
(** * Activity log: appending keeps the chronology *)

Section ActivityLogFacts.
Import Str ActivityLog.







End ActivityLogFacts.

Section ActivityLogReadBack.
Import Str ActivityLog.










End ActivityLogReadBack.




(** However the log is read, an appended entry cannot always count for one:
    an entry with a newline gives the body that its two lines, appended one
    after the other, give. *)
Lemma no_reader_counts_every_entry {E : Type} (read : string -> list E) :
  ~ (forall body entry,
       length (read (ActivityLog.append_activity_log body entry))
       = S (length (read body))).
Proof.
  intros Hread.
  pose proof (Hread "" ("a" +:+ Str.NL +:+ "b")) as H1.
  pose proof (Hread (ActivityLog.append_activity_log "" "a") "b") as H2.
  pose proof (Hread "" "a") as H3.
  assert (ActivityLog.append_activity_log (ActivityLog.append_activity_log "" "a") "b"
          = ActivityLog.append_activity_log "" ("a" +:+ Str.NL +:+ "b")) as Heq
    by reflexivity.
  rewrite Heq in H2. lia.
Qed.

(* ================================================================== *)
(** * Reasoning about commands *)

Section MonadFacts.

Lemma bind_eq {A B : Type} (m : M A) (k : A -> M B) (w : World) :
  (m ≫= k) w =
  match m w with
  | (Return a, w') => k a w'
  | (Raise e, w') => (Raise e, w')
  end.
Proof. reflexivity. Qed.

Lemma bind_Return {A B : Type} (m : M A) (k : A -> M B) (w w' : World) (a : A) :
  m w = (Return a, w') -> (m ≫= k) w = k a w'.
Proof. intros H. now rewrite bind_eq, H. Qed.

Lemma bind_Raise {A B : Type} (m : M A) (k : A -> M B) (w w' : World) (e : Exn) :
  m w = (Raise e, w') -> (m ≫= k) w = (Raise e, w').
Proof. intros H. now rewrite bind_eq, H. Qed.

Lemma bind_Return_inv {A B : Type} (m : M A) (k : A -> M B) (w w' : World) (b : B) :
  (m ≫= k) w = (Return b, w') ->
  exists a w1, m w = (Return a, w1) /\ k a w1 = (Return b, w').
Proof.
  rewrite bind_eq. destruct (m w) as [[a|e] w1]; [eauto | discriminate].
Qed.

Lemma ask_Return {A : Type} (f : World -> Outcome A) (w : World) (a : A) :
  f w = Return a -> ask f w = (Return a, w).
Proof. unfold ask. now intros ->. Qed.

Lemma quiet_ret {A : Type} (a : A) : quiet (mret a).
Proof. now intros w. Qed.

Lemma quiet_raise {A : Type} (e : Exn) : quiet (@raise A e).
Proof. now intros w. Qed.

Lemma quiet_sys_exit {A : Type} (code : Z) : quiet (@sys_exit A code).
Proof. now intros w. Qed.

Lemma quiet_ask {A : Type} (f : World -> Outcome A) : quiet (ask f).
Proof. now intros w. Qed.

Lemma quiet_asks {A : Type} (f : World -> A) : quiet (asks f).
Proof. now intros w. Qed.

Lemma quiet_lift {A : Type} (o : Outcome A) : quiet (lift o).
Proof. now intros w. Qed.

Lemma quiet_lift_option {A : Type} (e : Exn) (o : option A) : quiet (lift_option e o).
Proof. now destruct o; intros w. Qed.

Lemma quiet_print (line : string) : quiet (print line).
Proof. now intros w. Qed.

Lemma quiet_eprint (line : string) : quiet (eprint line).
Proof. now intros w. Qed.

Lemma quiet_bind {A B : Type} (m : M A) (k : A -> M B) :
  quiet m -> (forall a, quiet (k a)) -> quiet (m ≫= k).
Proof.
  intros Hm Hk w. rewrite bind_eq. specialize (Hm w).
  destruct (m w) as [[a|e] w1]; simpl in *; [|assumption].
  now rewrite Hk.
Qed.

Lemma quiet_for_each {A S : Type} (items : list A) (body : S -> A -> M S) (s : S) :
  (forall s' item, quiet (body s' item)) -> quiet (for_each items body s).
Proof.
  intros Hbody. revert s.
  induction items as [|item rest IH]; intros s; simpl.
  - apply quiet_ret.
  - apply quiet_bind; [apply Hbody | apply IH].
Qed.

Lemma quiet_print_lines (lines : list string) : quiet (print_lines lines).
Proof. apply quiet_for_each. intros. apply quiet_print. Qed.

End MonadFacts.

Create HintDb quiet.
#[export] Hint Resolve quiet_ret quiet_raise quiet_sys_exit quiet_ask quiet_asks
  quiet_lift quiet_lift_option quiet_print quiet_eprint quiet_print_lines : quiet.

(** Splits a sequence of steps into its steps, and decides the branches. *)
Ltac quiet_steps :=
  repeat first
    [ progress auto with quiet
    | apply quiet_bind; [|intros]
    | match goal with
      | |- quiet (if ?c then _ else _) => destruct c
      | |- quiet (match ?x with _ => _ end) => destruct x
      end ].

Section MoveFacts.

Context (os : Os) (th : TaskHelpers).

Lemma quiet_relative_to (p root : Path.t) : quiet (relative_to p root).
Proof. unfold relative_to. auto with quiet. Qed.

Lemma quiet_or_now (given : option string) : quiet (or_now th given).
Proof. unfold or_now. quiet_steps. Qed.

Lemma stage_move_dry_run (repo_root : Path.t) (wp : WorkPackage)
    (target_lane agent shell_pid note timestamp : string) (w : World) :
  stage_move os th repo_root wp target_lane agent shell_pid note timestamp true w
  = (Return
       (resolve os
          (Path.join (lane_dir repo_root (wp_feature wp) target_lane)
             (wp_relative_subpath wp)), wp), w).
Proof. reflexivity. Qed.

Lemma quiet_move_report (args : MoveArgs) (repo_root : Path.t)
    (agent shell_pid note timestamp : string) (staged : Path.t * WorkPackage) :
  quiet (move_report th args repo_root agent shell_pid note timestamp staged).
Proof.
  unfold move_report. destruct staged as [new_file_path wp].
  pose proof quiet_relative_to. quiet_steps.
Qed.

Lemma quiet_move_dry_run (args : MoveArgs) :
  ma_dry_run args = true -> quiet (move_command os th args).
Proof.
  intros Hdry. unfold move_command. rewrite Hdry.
  pose proof quiet_relative_to. pose proof quiet_or_now.
  pose proof quiet_move_report.
  quiet_steps.
  intros w. now rewrite stage_move_dry_run.
Qed.

End MoveFacts.

Section HistoryFacts.

Context (os : Os) (th : TaskHelpers).

Lemma quiet_history_dry_run (args : HistoryArgs) :
  ha_dry_run args = true -> quiet (history_command os th args).
Proof.
  intros Hdry. unfold history_command. rewrite Hdry.
  pose proof (quiet_or_now th). quiet_steps.
Qed.

(** What a dry run of [history] does once the work package is located and
    the lane is accepted. *)
Lemma history_dry_run_prints (args : HistoryArgs) (w : World) (repo_root : Path.t)
    (wp : WorkPackage) (lane : string) :
  ha_dry_run args = true ->
  find_repo_root th w = Return repo_root ->
  locate_work_package th repo_root (ha_feature args) (ha_work_package args) w = Return wp ->
  ensure_lane th (py_or_str (ha_lane args) (wp_current_lane wp)) = Return lane ->
  history_command os th args w
  = (Return tt,
     mkWorld (calls w)
       (stdout w
        ++ ["[dry-run] Would append activity entry: "
            +:+ ActivityLog.log_entry (timestamp_or_now th (ha_timestamp args) w)
                  (agent_or_default th (ha_agent args) wp)
                  (shell_pid_or_default th (ha_shell_pid args) wp) lane
                  (normalize_note th (Some (ha_note args)) lane)])
       (stderr w)).
Proof.
  intros Hdry Hroot Hwp Hlane. unfold history_command. rewrite Hdry.
  rewrite (bind_Return _ _ _ _ _ (ask_Return _ _ _ Hroot)).
  rewrite (bind_Return _ _ _ _ _ (ask_Return _ _ _ Hwp)).
  rewrite Hlane. rewrite bind_eq. unfold lift at 1.
  unfold or_now. rewrite bind_eq. unfold asks at 1. reflexivity.
Qed.

End HistoryFacts.

(** C9. A dry run touches nothing.  With [dry_run] set, [stage_move] returns
    the resolved target path before any mkdir, write or git step and leaves
    the world as it was; a [move] makes no call that changes the repository,
    whatever its outcome; so does a [history]; and a [history] of a located
    work package whose lane is accepted returns having printed the log entry
    it would have appended, and nothing else. *)
Theorem dry_run_changes_nothing (os : Os) (th : TaskHelpers) :
  (forall repo_root wp target_lane agent shell_pid note timestamp w,
     stage_move os th repo_root wp target_lane agent shell_pid note timestamp true w
     = (Return
          (resolve os
             (Path.join (lane_dir repo_root (wp_feature wp) target_lane)
                (wp_relative_subpath wp)), wp), w))
  /\ (forall args w,
        ma_dry_run args = true ->
        calls (snd (move_command os th args w)) = calls w)
  /\ (forall args w,
        ha_dry_run args = true ->
        calls (snd (history_command os th args w)) = calls w)
  /\ (forall args w repo_root wp lane,
        ha_dry_run args = true ->
        find_repo_root th w = Return repo_root ->
        locate_work_package th repo_root (ha_feature args) (ha_work_package args) w
        = Return wp ->
        ensure_lane th (py_or_str (ha_lane args) (wp_current_lane wp)) = Return lane ->
        history_command os th args w
        = (Return tt,
           mkWorld (calls w)
             (stdout w
              ++ ["[dry-run] Would append activity entry: "
                  +:+ ActivityLog.log_entry (timestamp_or_now th (ha_timestamp args) w)
                        (py_or_str (py_or (ha_agent args) (agent th wp)) "system")
                        (py_or_str (py_or (ha_shell_pid args) (shell_pid th wp)) "")
                        lane (normalize_note th (Some (ha_note args)) lane)])
             (stderr w))).
Proof.
  split; [|split; [|split]].
  - intros. apply stage_move_dry_run.
  - intros args w Hdry. now apply quiet_move_dry_run.
  - intros args w Hdry. now apply quiet_history_dry_run.
  - intros args w repo_root wp lane Hdry Hroot Hwp Hlane.
    exact (history_dry_run_prints os th args w repo_root wp lane Hdry Hroot Hwp Hlane).
Qed.

(** C8. A move to the lane the work package is already in is refused: once
    the work package is located, if the target lane is its current lane
    then [move_command] raises the TaskCliError "Work package already in
    lane ..." and the world is as before: no call, no output. *)
Theorem move_to_current_lane_refused (os : Os) (th : TaskHelpers)
    (args : MoveArgs) (w : World) (repo_root : Path.t) (wp : WorkPackage) :
  find_repo_root th w = Return repo_root ->
  locate_work_package th repo_root (ma_feature args) (ma_work_package args) w = Return wp ->
  wp_current_lane wp = ma_lane args ->
  move_command os th args w
  = (Raise (TaskCliError ("Work package already in lane '" +:+ ma_lane args +:+ "'.")), w).
Proof.
  intros Hroot Hwp Hlane. unfold move_command.
  rewrite (bind_Return _ _ _ _ _ (ask_Return _ _ _ Hroot)).
  rewrite (bind_Return _ _ _ _ _ (ask_Return _ _ _ Hwp)).
  rewrite Hlane, String.eqb_refl. reflexivity.
Qed.

Section MoveSteps.

Context (os : Os) (th : TaskHelpers).

(** A move up to its conflict check, for a work package that is located in
    another lane than the target. *)
Lemma move_command_conflict_check (args : MoveArgs) (w : World) (repo_root : Path.t)
    (wp : WorkPackage) (status_lines : list string) (old_rel new_rel : Path.t) :
  find_repo_root th w = Return repo_root ->
  locate_work_package th repo_root (ma_feature args) (ma_work_package args) w = Return wp ->
  wp_current_lane wp <> ma_lane args ->
  git_status_lines th repo_root w = Return status_lines ->
  Path.relative_to (wp_path wp) repo_root = Some old_rel ->
  Path.relative_to
    (Path.join (lane_dir repo_root (ma_feature args) (ma_lane args)) (wp_relative_subpath wp))
    repo_root = Some new_rel ->
  let agent := agent_or_default th (ma_agent args) wp in
  let shell_pid := shell_pid_or_default th (ma_shell_pid args) wp in
  let note := normalize_note th (ma_note args) (ma_lane args) in
  let timestamp := timestamp_or_now th (ma_timestamp args) w in
  let conflicts :=
    detect_conflicting_wp_status th status_lines (ma_feature args) old_rel new_rel in
  move_command os th args w =
  if negb (bool_decide (conflicts = [])) && negb (ma_force args)
  then (Raise (TaskCliError (conflict_message conflicts)), w)
  else (stage_move os th repo_root wp (ma_lane args) agent shell_pid note timestamp
          (ma_dry_run args)
        ≫= move_report th args repo_root agent shell_pid note timestamp) w.
Proof.
  intros Hroot Hwp Hlane Hstatus Hold Hnew. simpl. unfold move_command.
  rewrite (bind_Return _ _ _ _ _ (ask_Return _ _ _ Hroot)).
  rewrite (bind_Return _ _ _ _ _ (ask_Return _ _ _ Hwp)).
  apply String.eqb_neq in Hlane. rewrite Hlane.
  unfold or_now. rewrite bind_eq. unfold asks at 1.
  rewrite (bind_Return _ _ _ _ _ (ask_Return _ _ _ Hstatus)).
  unfold relative_to. rewrite Hold, Hnew. unfold lift_option.
  repeat (rewrite bind_eq; cbn [mret M_ret]).
  destruct (negb _ && negb _); reflexivity.
Qed.

End MoveSteps.

Section Inversions.

Lemma ask_Return_inv {A : Type} (f : World -> Outcome A) (w w' : World) (a : A) :
  ask f w = (Return a, w') -> f w = Return a /\ w' = w.
Proof. unfold ask. intros H. inversion H. auto. Qed.

Lemma asks_Return_inv {A : Type} (f : World -> A) (w w' : World) (a : A) :
  asks f w = (Return a, w') -> a = f w /\ w' = w.
Proof. unfold asks. intros H. inversion H. auto. Qed.

Lemma ret_Return_inv {A : Type} (a b : A) (w w' : World) :
  (mret a : M A) w = (Return b, w') -> b = a /\ w' = w.
Proof. intros H. inversion H. auto. Qed.

Lemma lift_option_Return_inv {A : Type} (e : Exn) (o : option A) (w w' : World) (a : A) :
  lift_option e o w = (Return a, w') -> o = Some a /\ w' = w.
Proof. destruct o; intros H; inversion H. auto. Qed.

Lemma perform_Return_inv (os : Os) (c : Call) (w w' : World) (u : unit) :
  perform os c w = (Return u, w') ->
  w' = mkWorld (calls w ++ [c]) (stdout w) (stderr w).
Proof.
  unfold perform. destruct (call_error os c w); intros H; inversion H. reflexivity.
Qed.

Lemma perform_calls (os : Os) (c : Call) (w : World) :
  calls (snd (perform os c w)) = calls w ++ [c].
Proof. unfold perform. now destruct (call_error os c w). Qed.

Lemma calls_bind_quiet {A B : Type} (m : M A) (k : A -> M B) (w : World) :
  (forall a, quiet (k a)) -> calls (snd ((m ≫= k) w)) = calls (snd (m w)).
Proof.
  intros Hk. rewrite bind_eq. destruct (m w) as [[a|e] w1]; simpl; [|reflexivity].
  apply Hk.
Qed.

Lemma quiet_extending {A : Type} (m : M A) : quiet m -> extending m.
Proof. intros H w. exists []. now rewrite app_nil_r. Qed.

Lemma extending_perform (os : Os) (c : Call) : extending (perform os c).
Proof. intros w. exists [c]. apply perform_calls. Qed.

Lemma extending_bind {A B : Type} (m : M A) (k : A -> M B) :
  extending m -> (forall a, extending (k a)) -> extending (m ≫= k).
Proof.
  intros Hm Hk w. rewrite bind_eq. destruct (Hm w) as [more1 H1].
  destruct (m w) as [[a|e] w1]; simpl in *; [|eauto].
  destruct (Hk a w1) as [more2 H2]. exists (more1 ++ more2).
  now rewrite H2, H1, app_assoc.
Qed.

End Inversions.

Tactic Notation "inv_bind" hyp(H) "as" ident(a) ident(w) ident(Hstep) :=
  apply bind_Return_inv in H as (a & w & Hstep & H).

Tactic Notation "inv_bind" hyp(H) :=
  let a := fresh "a" in
  let w := fresh "w" in
  let Hstep := fresh "Hstep" in
  apply bind_Return_inv in H as (a & w & Hstep & H).

Section StageMove.

Context (os : Os) (th : TaskHelpers).

Lemma stage_move_extending (repo_root : Path.t) (wp : WorkPackage)
    (target_lane agent shell_pid note timestamp : string) (dry_run : bool) :
  extending (stage_move os th repo_root wp target_lane agent shell_pid note timestamp dry_run).
Proof.
  unfold stage_move, mkdir, write_text, run_git, relative_to.
  destruct dry_run; [apply quiet_extending, quiet_ret|].
  repeat first
    [ apply extending_perform
    | apply extending_bind; [|intros]
    | apply quiet_extending; solve [auto with quiet]
    | match goal with |- extending (if ?c then _ else _) => destruct c end ].
Qed.

(** The first call of a move that is no dry run is the mkdir of the target
    lane's directory, whatever happens next. *)
Lemma stage_move_first_call (repo_root : Path.t) (wp : WorkPackage)
    (target_lane agent shell_pid note timestamp : string) (w : World) :
  exists more,
    calls (snd (stage_move os th repo_root wp target_lane agent shell_pid note
                  timestamp false w))
    = calls w ++ Mkdir (lane_dir repo_root (wp_feature wp) target_lane) :: more.
Proof.
  pose proof (stage_move_extending repo_root wp target_lane agent shell_pid note
                timestamp false) as Hext.
  unfold stage_move in *. cbn [mkdir] in *.
  rewrite bind_eq. unfold mkdir.
  pose proof (perform_calls os (Mkdir (lane_dir repo_root (wp_feature wp) target_lane)) w)
    as Hmk.
  destruct (perform os _ w) as [[u|e] w1] eqn:Hp; simpl in Hmk.
  - match goal with |- context [snd (?m w1)] =>
      assert (extending m) as Hrest end.
    { unfold write_text, run_git, relative_to.
      repeat first
        [ apply extending_perform
        | apply extending_bind; [|intros]
        | apply quiet_extending; solve [auto with quiet]
        | match goal with |- extending (if ?c then _ else _) => destruct c end ]. }
    destruct (Hrest w1) as [more Hmore]. exists more.
    rewrite Hmore, Hmk. now rewrite <- app_assoc.
  - exists []. simpl. exact Hmk.
Qed.

(** What a move that is no dry run has done when it returns. *)
Lemma stage_move_Return (repo_root : Path.t) (wp : WorkPackage)
    (target_lane agent shell_pid note timestamp : string) (w w' : World)
    (staged : Path.t * WorkPackage) :
  stage_move os th repo_root wp target_lane agent shell_pid note timestamp false w
  = (Return staged, w') ->
  let target_dir := lane_dir repo_root (wp_feature wp) target_lane in
  let new_path := resolve os (Path.join target_dir (wp_relative_subpath wp)) in
  let frontmatter := moved_frontmatter th (wp_frontmatter wp) target_lane agent shell_pid in
  let new_body :=
    ActivityLog.append_activity_log (wp_body wp)
      (ActivityLog.log_entry timestamp agent shell_pid target_lane note) in
  staged = (new_path, with_frontmatter frontmatter wp)
  /\ stdout w' = stdout w /\ stderr w' = stderr w
  /\ exists new_rel,
       Path.relative_to new_path repo_root = Some new_rel
       /\ ((resolve os (wp_path wp) = resolve os new_path
            /\ calls w' = calls w ++
                 [Mkdir target_dir;
                  WriteText new_path
                    (Document.build_document frontmatter new_body (wp_padding wp));
                  RunGit ["add"; Path.str new_rel] repo_root])
           \/ (resolve os (wp_path wp) <> resolve os new_path
               /\ exists old_rel,
                    Path.relative_to (wp_path wp) repo_root = Some old_rel
                    /\ calls w' = calls w ++
                         [Mkdir target_dir;
                          WriteText new_path
                            (Document.build_document frontmatter new_body (wp_padding wp));
                          RunGit ["add"; Path.str new_rel] repo_root;
                          RunGit ["rm"; "--quiet"; Path.str old_rel] repo_root])).
Proof.
  intros H. simpl. unfold stage_move in H.
  unfold mkdir, write_text, run_git, relative_to in H.
  inv_bind H. apply perform_Return_inv in Hstep as ->.
  inv_bind H. apply perform_Return_inv in Hstep as ->.
  inv_bind H as new_rel w1 Hnew. apply lift_option_Return_inv in Hnew as [Hnew ->].
  inv_bind H. apply perform_Return_inv in Hstep as ->.
  inv_bind H as u w1 Hrm.
  apply ret_Return_inv in H as [-> ->].
  cbn [wp_path with_frontmatter wp_body wp_padding wp_frontmatter] in *.
  case_bool_decide as Hsame.
  - apply ret_Return_inv in Hrm as [_ ->]. cbn.
    repeat split. exists new_rel. split; [assumption|]. left. split; [assumption|].
    now rewrite <- !app_assoc.
  - inv_bind Hrm as old_rel w2 Hold. apply lift_option_Return_inv in Hold as [Hold ->].
    apply perform_Return_inv in Hrm as ->. cbn.
    repeat split. exists new_rel. split; [assumption|]. right. split; [assumption|].
    exists old_rel. split; [assumption|]. now rewrite <- !app_assoc.
Qed.

End StageMove.

(** C3. Conflicts stop a move unless it is forced.  Take a move of a located
    work package to another lane, for which [detect_conflicting_wp_status]
    reports a non-empty list on the lines of the git status.  Without
    [--force], [move_command] raises a TaskCliError and the world is as
    before: [stage_move] has not run, nothing is written, moved or staged.
    With [--force] the conflicts are ignored: the command is [stage_move]
    followed by its report, and unless it is a dry run the mkdir of the
    target directory is made. *)
Theorem move_conflicts_need_force (os : Os) (th : TaskHelpers)
    (args : MoveArgs) (w : World) (repo_root : Path.t) (wp : WorkPackage)
    (status_lines : list string) (old_rel new_rel : Path.t) :
  find_repo_root th w = Return repo_root ->
  locate_work_package th repo_root (ma_feature args) (ma_work_package args) w = Return wp ->
  wp_current_lane wp <> ma_lane args ->
  git_status_lines th repo_root w = Return status_lines ->
  Path.relative_to (wp_path wp) repo_root = Some old_rel ->
  Path.relative_to
    (Path.join (lane_dir repo_root (ma_feature args) (ma_lane args)) (wp_relative_subpath wp))
    repo_root = Some new_rel ->
  let conflicts :=
    detect_conflicting_wp_status th status_lines (ma_feature args) old_rel new_rel in
  conflicts <> [] ->
  (ma_force args = false ->
   move_command os th args w = (Raise (TaskCliError (conflict_message conflicts)), w))
  /\ (ma_force args = true ->
      let agent := agent_or_default th (ma_agent args) wp in
      let shell_pid := shell_pid_or_default th (ma_shell_pid args) wp in
      let note := normalize_note th (ma_note args) (ma_lane args) in
      let timestamp := timestamp_or_now th (ma_timestamp args) w in
      move_command os th args w
      = (stage_move os th repo_root wp (ma_lane args) agent shell_pid note timestamp
           (ma_dry_run args)
         ≫= move_report th args repo_root agent shell_pid note timestamp) w
      /\ (ma_dry_run args = false ->
          exists more,
            calls (snd (move_command os th args w))
            = calls w ++ Mkdir (lane_dir repo_root (wp_feature wp) (ma_lane args)) :: more)).
Proof.
  intros Hroot Hwp Hlane Hstatus Hold Hnew conflicts Hconf.
  pose proof (move_command_conflict_check os th args w repo_root wp status_lines
                old_rel new_rel Hroot Hwp Hlane Hstatus Hold Hnew) as Hcheck.
  simpl in Hcheck. fold conflicts in Hcheck.
  rewrite (bool_decide_eq_false_2 _ Hconf) in Hcheck. simpl in Hcheck.
  split.
  - intros Hforce. now rewrite Hforce in Hcheck.
  - intros Hforce. rewrite Hforce in Hcheck. simpl in Hcheck.
    split; [exact Hcheck|].
    intros Hdry. rewrite Hcheck, Hdry.
    rewrite calls_bind_quiet by (intros; apply quiet_move_report).
    apply stage_move_first_call.
Qed.

(** C1. What a successful move does.  When a move of a located work package
    that is no dry run returns, the target lane was not the current one, and
    the calls it has made are, in this order: the mkdir of the target lane's
    directory; the write, at the work package's place under that directory,
    of the document built from the frontmatter with [lane] set to the target
    lane, [agent] to the resolved agent and, when the shell PID is not
    empty, [shell_pid] to it, from the body with the log entry of the move
    appended, and from the padding; the [git add] of the new path; and, when
    the old and the new path resolve to different files, the [git rm] of the
    old one. *)
Theorem move_stages_work_package (os : Os) (th : TaskHelpers)
    (args : MoveArgs) (w w' : World) (repo_root : Path.t) (wp : WorkPackage) :
  find_repo_root th w = Return repo_root ->
  locate_work_package th repo_root (ma_feature args) (ma_work_package args) w = Return wp ->
  ma_dry_run args = false ->
  move_command os th args w = (Return tt, w') ->
  let lane := ma_lane args in
  let agent := py_or_str (py_or (ma_agent args) (agent th wp)) "system" in
  let shell_pid := py_or_str (py_or (ma_shell_pid args) (shell_pid th wp)) "" in
  let note := normalize_note th (ma_note args) lane in
  let timestamp := timestamp_or_now th (ma_timestamp args) w in
  let target_dir := repo_root // "kitty-specs" // wp_feature wp // "tasks" // lane in
  let new_path := resolve os (Path.join target_dir (wp_relative_subpath wp)) in
  let frontmatter :=
    let fm := set_scalar th (set_scalar th (wp_frontmatter wp) "lane" lane) "agent" agent in
    if String.eqb shell_pid "" then fm else set_scalar th fm "shell_pid" shell_pid in
  let new_body :=
    ActivityLog.append_activity_log (wp_body wp)
      (ActivityLog.log_entry timestamp agent shell_pid lane note) in
  let new_content := Document.build_document frontmatter new_body (wp_padding wp) in
  wp_current_lane wp <> lane
  /\ exists old_rel new_rel,
       Path.relative_to (wp_path wp) repo_root = Some old_rel
       /\ Path.relative_to new_path repo_root = Some new_rel
       /\ calls w' =
          calls w
          ++ [Mkdir target_dir;
              WriteText new_path new_content;
              RunGit ["add"; Path.str new_rel] repo_root]
          ++ (if bool_decide (resolve os (wp_path wp) = resolve os new_path) then []
              else [RunGit ["rm"; "--quiet"; Path.str old_rel] repo_root]).
Proof.
  intros Hroot Hwp Hdry H. simpl.
  unfold move_command in H.
  rewrite (bind_Return _ _ _ _ _ (ask_Return _ _ _ Hroot)) in H.
  rewrite (bind_Return _ _ _ _ _ (ask_Return _ _ _ Hwp)) in H.
  destruct (String.eqb_spec (wp_current_lane wp) (ma_lane args)) as [|Hlane];
    [discriminate|].
  split; [assumption|].
  inv_bind H. apply asks_Return_inv in Hstep as [-> ->].
  inv_bind H. apply ask_Return_inv in Hstep as [Hstatus ->].
  inv_bind H as old_rel w1 Hold. apply lift_option_Return_inv in Hold as [Hold ->].
  inv_bind H. apply lift_option_Return_inv in Hstep as [Hnew ->].
  destruct (negb _ && negb _); [discriminate|].
  inv_bind H as staged w1 Hstage. rewrite Hdry in Hstage.
  pose proof (quiet_move_report th args repo_root
                (agent_or_default th (ma_agent args) wp)
                (shell_pid_or_default th (ma_shell_pid args) wp)
                (normalize_note th (ma_note args) (ma_lane args))
                (timestamp_or_now th (ma_timestamp args) w) staged w1) as Hquiet.
  rewrite H in Hquiet. simpl in Hquiet. clear H.
  apply stage_move_Return in Hstage as (_ & _ & _ & new_rel & Hrel & Hcalls).
  exists old_rel, new_rel. split; [assumption|]. split; [assumption|].
  rewrite Hquiet.
  destruct Hcalls as [[Hsame Hcalls] | (Hdiff & old_rel' & Hold' & Hcalls)].
  - rewrite (bool_decide_eq_true_2 _ Hsame). exact Hcalls.
  - rewrite (bool_decide_eq_false_2 _ Hdiff).
    assert (old_rel' = old_rel) as -> by congruence. exact Hcalls.
Qed.

Section Rollback.

Context (os : Os) (th : TaskHelpers).

Lemma from_end_last_two {A : Type} (earlier : list A) (x y : A) (w : World) :
  from_end (earlier ++ [x; y]) 2 w = (Return x, w)
  /\ from_end (earlier ++ [x; y]) 1 w = (Return y, w).
Proof.
  unfold from_end. rewrite length_app. simpl.
  destruct (Nat.ltb_spec (length earlier + 2) 2) as [?|_]; [lia|].
  destruct (Nat.ltb_spec (length earlier + 2) 1) as [?|_]; [lia|].
  replace (length earlier + 2 - 2) with (length earlier + 0) by lia.
  replace (length earlier + 2 - 1) with (length earlier + 1) by lia.
  rewrite !lookup_app_r by lia.
  replace (length earlier + 0 - length earlier) with 0 by lia.
  replace (length earlier + 1 - length earlier) with 1 by lia.
  split; reflexivity.
Qed.

End Rollback.

(** C10. A rollback goes to the lane of the entry before the last.  For a
    located work package: when its body has fewer than two activity entries,
    [rollback_command] raises a TaskCliError and the world is as before;
    otherwise the lane of the second-to-last entry is passed to
    [ensure_lane], whose error, if any, is raised with the world as before,
    and whose result is the lane of the [move_command] that the rollback
    then is, with the agent and the shell PID of the last entry as
    defaults. *)
Theorem rollback_moves_to_previous_lane (os : Os) (th : TaskHelpers)
    (args : RollbackArgs) (w : World) (repo_root : Path.t) (wp : WorkPackage) :
  find_repo_root th w = Return repo_root ->
  locate_work_package th repo_root (ra_feature args) (ra_work_package args) w = Return wp ->
  let entries := ActivityLog.activity_entries (wp_body wp) in
  (length entries < 2 ->
   rollback_command os th args w
   = (Raise (TaskCliError "Not enough activity entries to determine the previous lane."), w))
  /\ (forall earlier before_last last,
        entries = earlier ++ [before_last; last] ->
        match ensure_lane th (ActivityLog.lane before_last) with
        | Raise e => rollback_command os th args w = (Raise e, w)
        | Return previous_lane =>
            rollback_command os th args w
            = move_command os th
                (mkMoveArgs (ra_feature args) (ra_work_package args) previous_lane
                   (Some (py_or_str (ra_note args) ("Rolled back to " +:+ previous_lane)))
                   (Some (py_or_str (ra_agent args) (ActivityLog.agent last)))
                   (ra_assignee args)
                   (Some (py_or_str (ra_shell_pid args)
                            (default "" (ActivityLog.shell_pid last))))
                   (Some (timestamp_or_now th (ra_timestamp args) w))
                   (ra_dry_run args) (ra_force args)) w
        end).
Proof.
  intros Hroot Hwp entries. split.
  - intros Hshort. unfold rollback_command.
    rewrite (bind_Return _ _ _ _ _ (ask_Return _ _ _ Hroot)).
    rewrite (bind_Return _ _ _ _ _ (ask_Return _ _ _ Hwp)).
    fold entries. destruct (Nat.ltb_spec (length entries) 2) as [_|?]; [reflexivity|lia].
  - intros earlier before_last last Hentries. unfold rollback_command.
    rewrite (bind_Return _ _ _ _ _ (ask_Return _ _ _ Hroot)).
    rewrite (bind_Return _ _ _ _ _ (ask_Return _ _ _ Hwp)).
    fold entries. rewrite Hentries.
    destruct (Nat.ltb_spec (length (earlier ++ [before_last; last])) 2) as [Hlen|_].
    { rewrite length_app in Hlen. simpl in Hlen. lia. }
    destruct (from_end_last_two earlier before_last last w) as [H2 H1].
    rewrite (bind_Return _ _ _ _ _ H2).
    destruct (ensure_lane th (ActivityLog.lane before_last)) as [previous_lane|e].
    + rewrite bind_eq. unfold lift at 1.
      rewrite (bind_Return _ _ _ _ _ H1).
      unfold or_now. rewrite bind_eq. unfold asks at 1. reflexivity.
    + reflexivity.
Qed.

Section SummaryText.

Context (th : TaskHelpers).

Lemma fold_left_append {A B : Type} (f : A -> B) (items : list A) (lines : list B) :
  fold_left (fun lines item => lines ++ [f item]) items lines = lines ++ map f items.
Proof.
  revert lines. induction items as [|item items IH]; intros lines; simpl.
  - now rewrite app_nil_r.
  - now rewrite IH, <- app_assoc.
Qed.

Lemma fold_left_outstanding (outstanding : list (string * list string)) (lines : list string) :
  fold_left
    (fun lines '(key, values) =>
       fold_left (fun lines value => lines ++ ["    - " +:+ value]) values
         (lines ++ ["  " +:+ key +:+ ":"]))
    outstanding lines
  = lines ++ outstanding_lines outstanding.
Proof.
  revert lines. induction outstanding as [|[key values] rest IH]; intros lines; simpl.
  - now rewrite app_nil_r.
  - rewrite IH, fold_left_append, <- !app_assoc. reflexivity.
Qed.

Lemma summary_to_text_eq (summary : AcceptanceSummary) :
  _summary_to_text th summary
  = ["Feature: " +:+ as_feature summary;
     "Branch: " +:+ py_or_str (as_branch summary) "N/A";
     "Worktree: " +:+ as_worktree_root summary;
     "";
     "Work packages by lane:"]
    ++ map (lane_line summary) (LANES th)
    ++ [""]
    ++ match as_outstanding summary with
       | [] => ["All acceptance checks passed."]
       | outstanding => "Outstanding items:" :: outstanding_lines outstanding
       end
    ++ match as_optional_missing summary with
       | [] => []
       | missing => [""; "Optional artifacts missing: " +:+ Str.join ", " missing]
       end.
Proof.
  unfold _summary_to_text. rewrite fold_left_append.
  destruct (as_outstanding summary) as [|o rest] eqn:Hout.
  - destruct (as_optional_missing summary); simpl; rewrite <- ?app_assoc; simpl;
      rewrite <- ?app_assoc; reflexivity.
  - rewrite fold_left_outstanding.
    destruct (as_optional_missing summary); simpl; rewrite <- ?app_assoc; simpl;
      rewrite <- ?app_assoc; simpl; rewrite ?app_nil_r; reflexivity.
Qed.

(** Every outstanding item has its line in the text of the summary. *)
Lemma summary_to_text_outstanding (summary : AcceptanceSummary)
    (key value : string) (values : list string) :
  In (key, values) (as_outstanding summary) -> In value values ->
  In ("    - " +:+ value) (_summary_to_text th summary).
Proof.
  intros Hkey Hvalue. rewrite summary_to_text_eq.
  apply in_or_app. right. apply in_or_app. right. apply in_or_app. right.
  apply in_or_app. left.
  destruct (as_outstanding summary) as [|o rest] eqn:Hout; [contradiction|].
  right. unfold outstanding_lines. apply in_flat_map.
  exists (key, values). split; [assumption|]. right. now apply in_map.
Qed.

End SummaryText.

Section Printing.

Lemma print_lines_eq (lines : list string) (w : World) :
  print_lines lines w = (Return tt, mkWorld (calls w) (stdout w ++ lines) (stderr w)).
Proof.
  unfold print_lines. revert w.
  induction lines as [|line lines IH]; intros w; simpl.
  - rewrite app_nil_r. now destruct w.
  - rewrite bind_eq. unfold print at 1. rewrite IH. simpl.
    now rewrite <- app_assoc.
Qed.

End Printing.

Section Accept.

Context (os : Os) (th : TaskHelpers) (acc : AcceptanceSupport).

Lemma perform_acceptance_eq (summary : AcceptanceSummary) (mode : string)
    (actor : option string) (tests : list string) (auto_commit : bool) (w : World) :
  let call := PerformAcceptance (as_feature summary) mode actor tests auto_commit in
  perform_acceptance os acc summary mode actor tests auto_commit w =
  match call_error os call w with
  | Some e => (Raise e, noted call w)
  | None => (acceptance_report acc summary mode actor tests auto_commit (noted call w),
             noted call w)
  end.
Proof.
  simpl. unfold perform_acceptance. rewrite bind_eq. unfold perform, noted, ask.
  destruct (call_error os _ w); reflexivity.
Qed.

Lemma perform_acceptance_first_call (summary : AcceptanceSummary) (mode : string)
    (actor : option string) (tests : list string) (auto_commit : bool) (w : World) :
  exists more,
    calls (snd (perform_acceptance os acc summary mode actor tests auto_commit w))
    = calls w ++ PerformAcceptance (as_feature summary) mode actor tests auto_commit :: more.
Proof.
  rewrite perform_acceptance_eq. simpl. exists [].
  destruct (call_error os _ w); reflexivity.
Qed.

Lemma except_AcceptanceError_calls {A : Type} (body : M A) (handler : string -> M A)
    (w : World) :
  (forall msg, quiet (handler msg)) ->
  calls (snd (except_AcceptanceError body handler w)) = calls (snd (body w)).
Proof.
  intros Hq. unfold except_AcceptanceError.
  destruct (body w) as [[a|[]] w1]; simpl; try reflexivity. apply Hq.
Qed.


Lemma quiet_resolve_feature (repo_root : Path.t) (requested : option string) :
  quiet (_resolve_feature acc repo_root requested).
Proof. unfold _resolve_feature. quiet_steps. Qed.

Lemma quiet_accept_report (args : AcceptArgs) (feature : string) (result : AcceptanceResult) :
  quiet (accept_report acc args feature result).
Proof.
  unfold accept_report, print_section. quiet_steps.
Qed.

(** An acceptance up to its check of the summary, outside the checklist
    mode. *)
Lemma accept_command_check (args : AcceptArgs) (w : World) (repo_root : Path.t)
    (feature : string) (summary : AcceptanceSummary) :
  find_repo_root th w = Return repo_root ->
  _resolve_feature acc repo_root (aa_feature args) w = (Return feature, w) ->
  collect_feature_summary acc repo_root feature (negb (aa_lenient args)) w = Return summary ->
  aa_mode args <> "checklist" ->
  accept_command os th acc args w =
  if negb (as_ok summary) && negb (aa_allow_fail args)
  then (Raise (SystemExit 1),
        mkWorld (calls w)
          (stdout w ++ _summary_to_text th summary
           ++ [Str.NL +:+ "❌ Outstanding items detected. Fix them or re-run with --allow-fail for checklist mode."])
          (stderr w))
  else (except_AcceptanceError
          (perform_acceptance os acc summary (choose_mode acc (aa_mode args) repo_root w)
             (aa_actor args) (default [] (aa_test args)) (negb (aa_no_commit args)))
          (fun exc => eprint ("Error: " +:+ exc);; sys_exit 1%Z)
        ≫= accept_report acc args feature) w.
Proof.
  intros Hroot Hfeat Hsum Hmode. unfold accept_command.
  rewrite (bind_Return _ _ _ _ _ (ask_Return _ _ _ Hroot)).
  rewrite (bind_Return _ _ _ _ _ Hfeat).
  rewrite (bind_Return _ _ _ _ _ (ask_Return _ _ _ Hsum)).
  apply String.eqb_neq in Hmode. rewrite Hmode.
  rewrite bind_eq. unfold asks at 1.
  destruct (negb _ && negb _); [|reflexivity].
  rewrite bind_eq, print_lines_eq. rewrite bind_eq. unfold print at 1. simpl.
  now rewrite <- app_assoc.
Qed.


End Accept.

(** C4. An acceptance outside the checklist mode stops on outstanding items.
    Once the repository, the feature and its summary are found and the mode
    is not "checklist": when the summary is not ok and [--allow-fail] is not
    given, [accept_command] prints the text of the summary, in which every
    outstanding item has its line, then the closing message, and exits with
    status 1 having made no call, so [perform_acceptance] has not run; if
    the command makes any call at all then the summary is ok or
    [--allow-fail] is given; and in that case [perform_acceptance] is the
    first call it makes. *)
Theorem accept_stops_on_outstanding_items (os : Os) (th : TaskHelpers)
    (acc : AcceptanceSupport) (args : AcceptArgs) (w : World) (repo_root : Path.t)
    (feature : string) (summary : AcceptanceSummary) :
  find_repo_root th w = Return repo_root ->
  _resolve_feature acc repo_root (aa_feature args) w = (Return feature, w) ->
  collect_feature_summary acc repo_root feature (negb (aa_lenient args)) w = Return summary ->
  aa_mode args <> "checklist" ->
  (as_ok summary = false -> aa_allow_fail args = false ->
   accept_command os th acc args w
   = (Raise (SystemExit 1),
      mkWorld (calls w)
        (stdout w ++ _summary_to_text th summary
         ++ [Str.NL +:+ "❌ Outstanding items detected. Fix them or re-run with --allow-fail for checklist mode."])
        (stderr w))
   /\ forall key values value,
        In (key, values) (as_outstanding summary) -> In value values ->
        In ("    - " +:+ value) (_summary_to_text th summary))
  /\ (calls (snd (accept_command os th acc args w)) <> calls w ->
      as_ok summary = true \/ aa_allow_fail args = true)
  /\ (as_ok summary = true \/ aa_allow_fail args = true ->
      exists more,
        calls (snd (accept_command os th acc args w))
        = calls w
          ++ PerformAcceptance (as_feature summary)
               (choose_mode acc (aa_mode args) repo_root w) (aa_actor args)
               (default [] (aa_test args)) (negb (aa_no_commit args)) :: more).
Proof.
  intros Hroot Hfeat Hsum Hmode.
  pose proof (accept_command_check os th acc args w repo_root feature summary
                Hroot Hfeat Hsum Hmode) as Hcheck.
  split; [|split].
  - intros Hok Hallow. rewrite Hok, Hallow in Hcheck. simpl in Hcheck.
    split; [exact Hcheck|].
    intros key values value. apply summary_to_text_outstanding.
  - intros Hcalls.
    destruct (as_ok summary); [now left|].
    destruct (aa_allow_fail args); [now right|].
    simpl in Hcheck. rewrite Hcheck in Hcalls. now contradiction Hcalls.
  - intros Hgo.
    assert (negb (as_ok summary) && negb (aa_allow_fail args) = false) as Hgate.
    { destruct Hgo as [-> | ->]; [reflexivity | apply andb_false_r]. }
    rewrite Hgate in Hcheck. rewrite Hcheck.
    rewrite calls_bind_quiet by (intros; apply quiet_accept_report).
    rewrite except_AcceptanceError_calls by (intros; quiet_steps).
    apply perform_acceptance_first_call.
Qed.

Section AcceptCompletes.

Context (os : Os) (th : TaskHelpers) (acc : AcceptanceSupport).


End AcceptCompletes.


Section PathOrder.

Lemma path_leb_total (p q : Path.t) : Path.leb p q = true \/ Path.leb q p = true.
Proof.
  revert q. induction p as [|a p IH]; intros q; [now left|].
  destruct q as [|b q]; [now right|]. simpl.
  rewrite (String.compare_antisym b a).
  destruct (String.compare a b); simpl; auto.
Qed.

Global Instance path_le_total : Total Path.le.
Proof. intros p q. apply path_leb_total. Qed.

(** [sorted] returns its argument in order and keeps each of its elements. *)
Lemma path_sorted_spec (paths : list Path.t) :
  Sorted Path.le (Path.sorted paths) /\ Path.sorted paths ≡ₚ paths.
Proof.
  split; [apply Sorted_merge_sort, _ | apply merge_sort_Permutation].
Qed.

End PathOrder.

Section Listing.

Context (os : Os) (th : TaskHelpers).

Lemma for_each_list_row (args : ListArgs) (repo_root feature_dir : Path.t) (lane : string)
    (paths : list Path.t) (rows rows' : list Row) (w w' : World) :
  for_each paths (list_row os th args repo_root (feature_dir // lane) lane) rows w
  = (Return rows', w') ->
  w' = w
  /\ exists new,
       rows' = rows ++ new
       /\ Forall2 (row_of os th args w repo_root feature_dir) new (map (pair lane) paths).
Proof.
  revert rows. induction paths as [|path paths IH]; intros rows H; simpl in H.
  - apply ret_Return_inv in H as [-> ->]. split; [reflexivity|].
    exists []. rewrite app_nil_r. split; [reflexivity | constructor].
  - inv_bind H as rows1 w1 Hrow. unfold list_row, relative_to in Hrow.
    inv_bind Hrow as text w2 Htext. apply ask_Return_inv in Htext as [Htext ->].
    inv_bind Hrow as sub w2 Hsub. apply lift_option_Return_inv in Hsub as [Hsub ->].
    inv_bind Hrow as rel w2 Hrel. apply lift_option_Return_inv in Hrel as [Hrel ->].
    apply ret_Return_inv in Hrow as [-> ->].
    destruct (IH _ H) as (-> & new & -> & Hnew). split; [reflexivity|].
    exists (make_row th args lane path sub rel text :: new).
    rewrite <- app_assoc. split; [reflexivity|].
    simpl. constructor; [|assumption].
    exists text, sub, rel. auto.
Qed.

Lemma for_each_list_lane (args : ListArgs) (repo_root feature_dir : Path.t)
    (lanes : list string) (rows rows' : list Row) (w w' : World) :
  for_each lanes (list_lane os th args repo_root feature_dir) rows w = (Return rows', w') ->
  w' = w
  /\ exists new,
       rows' = rows ++ new
       /\ Forall2 (row_of os th args w repo_root feature_dir) new
            (flat_map (lane_files os w feature_dir) lanes).
Proof.
  revert rows. induction lanes as [|lane lanes IH]; intros rows H; simpl in H.
  - apply ret_Return_inv in H as [-> ->]. split; [reflexivity|].
    exists []. rewrite app_nil_r. split; [reflexivity | constructor].
  - inv_bind H as rows1 w1 Hlane. unfold list_lane in Hlane.
    inv_bind Hlane as ex w2 Hex. apply asks_Return_inv in Hex as [-> ->].
    simpl. unfold lane_files at 1.
    destruct (path_exists os (feature_dir // lane) w); simpl in Hlane.
    + inv_bind Hlane as paths w2 Hpaths. apply asks_Return_inv in Hpaths as [-> ->].
      apply for_each_list_row in Hlane as (-> & new1 & -> & Hnew1).
      destruct (IH _ H) as (-> & new2 & -> & Hnew2). split; [reflexivity|].
      exists (new1 ++ new2). rewrite <- app_assoc. split; [reflexivity|].
      now apply Forall2_app.
    + apply ret_Return_inv in Hlane as [-> ->].
      destruct (IH _ H) as (-> & new2 & -> & Hnew2). split; [reflexivity|].
      exists new2. split; [reflexivity | assumption].
Qed.

End Listing.

(** C6. The status of a feature is read off every lane.  When [list] returns
    it has gone through the lanes of [LANES] in order and, for each lane
    whose directory exists, through the markdown files found under it in
    sorted order, and has one row for each of these files, in that order;
    it has printed the table of these rows, one line for each row after the
    heading and the rule, or the notice that there is none; and it has made
    no call.  [sorted] puts the paths in order and keeps each of them.  The
    text of a summary has, after its five heading lines, one line for each
    lane of [LANES], in order, with the lane, the number of its items and
    the items themselves, or a dash when there is none. *)
Theorem status_covers_every_lane (os : Os) (th : TaskHelpers) :
  (forall args w w' repo_root,
     find_repo_root th w = Return repo_root ->
     list_command os th args w = (Return tt, w') ->
     let feature_dir := repo_root // "kitty-specs" // la_feature args // "tasks" in
     exists rows,
       Forall2 (row_of os th args w repo_root feature_dir) rows
         (flat_map
            (fun lane =>
               if path_exists os (feature_dir // lane) w
               then map (pair lane) (Path.sorted (rglob_md os (feature_dir // lane) w))
               else [])
            (LANES th))
       /\ calls w' = calls w
       /\ stdout w' =
          stdout w ++
          match rows with
          | [] => ["No work packages found for feature '" +:+ la_feature args +:+ "'."]
          | _ => list_table rows
          end
       /\ length (list_table rows) = 2 + length rows)
  /\ (forall paths, Sorted Path.le (Path.sorted paths) /\ Path.sorted paths ≡ₚ paths)
  /\ (forall summary,
        exists rest,
          _summary_to_text th summary =
          ["Feature: " +:+ as_feature summary;
           "Branch: " +:+ py_or_str (as_branch summary) "N/A";
           "Worktree: " +:+ as_worktree_root summary;
           "";
           "Work packages by lane:"]
          ++ map (fun lane =>
                    let items := default [] (as_lanes summary !! lane) in
                    "  " +:+ lane +:+ " (" +:+ pretty (length items) +:+ "): "
                    +:+ match items with [] => "-" | _ => Str.join ", " items end)
               (LANES th)
          ++ rest).
Proof.
  split; [|split].
  - intros args w w' repo_root Hroot H feature_dir. unfold list_command in H.
    rewrite (bind_Return _ _ _ _ _ (ask_Return _ _ _ Hroot)) in H.
    fold feature_dir in H.
    inv_bind H as ex w1 Hex. apply asks_Return_inv in Hex as [-> ->].
    destruct (path_exists os feature_dir w); [|discriminate]. simpl in H.
    inv_bind H as rows w1 Hrows.
    apply for_each_list_lane in Hrows as (-> & new & -> & Hnew). simpl in H.
    exists new. split; [exact Hnew|].
    assert (length (list_table new) = 2 + length new) as Hlen.
    { unfold list_table. simpl. now rewrite length_map. }
    destruct new as [|row new].
    + unfold print in H. inversion H. simpl. auto.
    + rewrite print_lines_eq in H. inversion H. simpl. auto.
  - apply path_sorted_spec.
  - intros summary. rewrite summary_to_text_eq. eexists. reflexivity.
Qed.

(* ================================================================== *)
(** * The theorems at work on the small repository *)

(** A move of WP01 from planned to doing. *)
Lemma move_stages_work_package_witness :
  move_command Demo.os (Demo.helpers []) (Demo.move_wp01 "doing" false false) Demo.start
  = (Return tt,
     snd (move_command Demo.os (Demo.helpers []) (Demo.move_wp01 "doing" false false)
            Demo.start))
  /\ calls (snd (move_command Demo.os (Demo.helpers []) (Demo.move_wp01 "doing" false false)
                   Demo.start))
     = [Mkdir (Demo.tasks // "doing");
        WriteText (Demo.tasks // "doing" // "WP01.md")
          (Demo.document (Demo.front_lines "WP01" "doing" "robin" ++ ["shell_pid: 4242"])
             "WP01"
             ["- 2025-01-01T00:00:00Z – system – shell_pid= – lane=planned – Created";
              "- 2025-01-02T03:04:05Z – robin – shell_pid=4242 – lane=doing – Started"]);
        RunGit ["add"; "kitty-specs/001-demo/tasks/doing/WP01.md"] Demo.repo;
        RunGit ["rm"; "--quiet"; "kitty-specs/001-demo/tasks/planned/WP01.md"] Demo.repo].
Proof.
  assert (move_command Demo.os (Demo.helpers []) (Demo.move_wp01 "doing" false false)
            Demo.start
          = (Return tt,
             snd (move_command Demo.os (Demo.helpers [])
                    (Demo.move_wp01 "doing" false false) Demo.start))) as Hrun
    by (vm_compute; reflexivity).
  split; [exact Hrun|].
  destruct (move_stages_work_package Demo.os (Demo.helpers [])
              (Demo.move_wp01 "doing" false false) Demo.start _ Demo.repo Demo.wp01
              eq_refl eq_refl eq_refl Hrun)
    as (_ & old_rel & new_rel & Hold & Hnew & Hcalls).
  vm_compute in Hold, Hnew. injection Hold as <-. injection Hnew as <-.
  rewrite Hcalls. vm_compute. reflexivity.
Defined.

(** A move while another work package of the feature is modified. *)
Lemma move_conflicts_need_force_witness :
  move_command Demo.os (Demo.helpers [" M kitty-specs/001-demo/tasks/doing/WP03.md"])
    (Demo.move_wp01 "doing" false false) Demo.start
  = (Raise (TaskCliError
              (conflict_message [" M kitty-specs/001-demo/tasks/doing/WP03.md"])),
     Demo.start)
  /\ exists more,
       calls (snd (move_command Demo.os
                     (Demo.helpers [" M kitty-specs/001-demo/tasks/doing/WP03.md"])
                     (Demo.move_wp01 "doing" false true) Demo.start))
       = Mkdir (Demo.tasks // "doing") :: more.
Proof.
  split.
  - refine (proj1 (move_conflicts_need_force Demo.os
                     (Demo.helpers [" M kitty-specs/001-demo/tasks/doing/WP03.md"])
                     (Demo.move_wp01 "doing" false false) Demo.start Demo.repo Demo.wp01
                     [" M kitty-specs/001-demo/tasks/doing/WP03.md"]
                     ["kitty-specs"; "001-demo"; "tasks"; "planned"; "WP01.md"]
                     ["kitty-specs"; "001-demo"; "tasks"; "doing"; "WP01.md"]
                     eq_refl eq_refl _ eq_refl eq_refl eq_refl _) eq_refl);
      vm_compute; discriminate.
  - refine (proj2 (proj2 (move_conflicts_need_force Demo.os
                     (Demo.helpers [" M kitty-specs/001-demo/tasks/doing/WP03.md"])
                     (Demo.move_wp01 "doing" false true) Demo.start Demo.repo Demo.wp01
                     [" M kitty-specs/001-demo/tasks/doing/WP03.md"]
                     ["kitty-specs"; "001-demo"; "tasks"; "planned"; "WP01.md"]
                     ["kitty-specs"; "001-demo"; "tasks"; "doing"; "WP01.md"]
                     eq_refl eq_refl _ eq_refl eq_refl eq_refl _) eq_refl) eq_refl);
      vm_compute; discriminate.
Defined.

(** An acceptance with outstanding items. *)
Lemma accept_stops_on_outstanding_items_witness :
  accept_command Demo.os (Demo.helpers []) (Demo.acceptance false) (Demo.accept false false)
    Demo.start
  = (Raise (SystemExit 1),
     mkWorld []
       (_summary_to_text (Demo.helpers []) (Demo.summary false)
        ++ [Str.NL +:+ "❌ Outstanding items detected. Fix them or re-run with --allow-fail for checklist mode."])
       [])
  /\ In "    - WP03" (_summary_to_text (Demo.helpers []) (Demo.summary false)).
Proof.
  pose proof (proj1 (accept_stops_on_outstanding_items Demo.os (Demo.helpers [])
                       (Demo.acceptance false) (Demo.accept false false) Demo.start
                       Demo.repo "001-demo" (Demo.summary false)
                       eq_refl eq_refl eq_refl ltac:(discriminate)) eq_refl eq_refl)
    as [Hrun Hitems].
  split; [exact Hrun|].
  apply (Hitems "doing" ["WP03"] "WP03"); vm_compute; auto.
Defined.



(** The list of the feature: two lanes have files, and those of the first are
    put in order. *)
Lemma status_covers_every_lane_witness :
  exists rows,
    Forall2 (row_of Demo.os (Demo.helpers []) (mkListArgs "001-demo") Demo.start
               Demo.repo Demo.tasks) rows
      [("planned", Demo.wp01_path); ("planned", Demo.wp02_path); ("doing", Demo.wp03_path)]
    /\ calls (snd (list_command Demo.os (Demo.helpers []) (mkListArgs "001-demo") Demo.start))
       = []
    /\ length (list_table rows) = 2 + length rows.
Proof.
  assert (list_command Demo.os (Demo.helpers []) (mkListArgs "001-demo") Demo.start
          = (Return tt,
             snd (list_command Demo.os (Demo.helpers []) (mkListArgs "001-demo")
                    Demo.start))) as Hrun
    by (vm_compute; reflexivity).
  destruct (proj1 (status_covers_every_lane Demo.os (Demo.helpers []))
              (mkListArgs "001-demo") Demo.start _ Demo.repo eq_refl Hrun)
    as (rows & Hrows & Hcalls & _ & Hlen).
  exists rows. split; [exact Hrows|]. split; [exact Hcalls | exact Hlen].
Defined.

(** A move of WP01 to the lane it is in. *)
Lemma move_to_current_lane_refused_witness :
  move_command Demo.os (Demo.helpers []) (Demo.move_wp01 "planned" false false) Demo.start
  = (Raise (TaskCliError "Work package already in lane 'planned'."), Demo.start).
Proof.
  exact (move_to_current_lane_refused Demo.os (Demo.helpers [])
           (Demo.move_wp01 "planned" false false) Demo.start Demo.repo Demo.wp01
           eq_refl eq_refl eq_refl).
Defined.

(** A move and a history entry, both as dry runs. *)
Lemma dry_run_changes_nothing_witness :
  calls (snd (move_command Demo.os (Demo.helpers []) (Demo.move_wp01 "doing" true false)
                Demo.start)) = []
  /\ history_command Demo.os (Demo.helpers []) (Demo.history_wp01 true) Demo.start
     = (Return tt,
        mkWorld []
          ["[dry-run] Would append activity entry: - 2025-01-02T03:04:05Z – robin – shell_pid= – lane=planned – Reviewed"]
          []).
Proof.
  split.
  - exact (proj1 (proj2 (dry_run_changes_nothing Demo.os (Demo.helpers [])))
             (Demo.move_wp01 "doing" true false) Demo.start eq_refl).
  - exact (proj2 (proj2 (proj2 (dry_run_changes_nothing Demo.os (Demo.helpers []))))
             (Demo.history_wp01 true) Demo.start Demo.repo Demo.wp01 "planned"
             eq_refl eq_refl eq_refl eq_refl).
Defined.

(** A rollback of WP03, which went from planned to doing, and one of WP01,
    which has a single entry. *)
Lemma rollback_moves_to_previous_lane_witness :
  rollback_command Demo.os (Demo.helpers []) (Demo.rollback_wp "WP03") Demo.start
  = move_command Demo.os (Demo.helpers [])
      (mkMoveArgs "001-demo" "WP03" "planned" (Some "Rolled back to planned")
         (Some "codex") None (Some "77") (Some "2025-01-03T00:00:00Z") false false)
      Demo.start
  /\ rollback_command Demo.os (Demo.helpers []) (Demo.rollback_wp "WP01") Demo.start
     = (Raise (TaskCliError "Not enough activity entries to determine the previous lane."),
        Demo.start).
Proof.
  split.
  - exact (proj2 (rollback_moves_to_previous_lane Demo.os (Demo.helpers [])
                    (Demo.rollback_wp "WP03") Demo.start Demo.repo Demo.wp03
                    eq_refl eq_refl)
             []
             (ActivityLog.mkEntry "2025-01-01T00:00:00Z" "system" (Some "") "planned"
                "Created")
             (ActivityLog.mkEntry "2025-01-01T08:00:00Z" "codex" (Some "77") "doing"
                "Started")
             eq_refl).
  - refine (proj1 (rollback_moves_to_previous_lane Demo.os (Demo.helpers [])
                     (Demo.rollback_wp "WP01") Demo.start Demo.repo Demo.wp01
                     eq_refl eq_refl) _).
    vm_compute. lia.
Defined.

(* ================================================================== *)
(** * Further properties of the commands *)

Section ReadOnly.

Context (os : Os) (th : TaskHelpers) (acc : AcceptanceSupport).

Lemma quiet_list_row (args : ListArgs) (repo_root lane_dir : Path.t) (lane : string)
    (rows : list Row) (path : Path.t) :
  quiet (list_row os th args repo_root lane_dir lane rows path).
Proof. unfold list_row. pose proof quiet_relative_to. quiet_steps. Qed.

Lemma quiet_list_lane (args : ListArgs) (repo_root feature_dir : Path.t)
    (rows : list Row) (lane : string) :
  quiet (list_lane os th args repo_root feature_dir rows lane).
Proof.
  unfold list_lane. apply quiet_bind; [auto with quiet|]. intros ex.
  destruct (negb ex); [auto with quiet|].
  apply quiet_bind; [auto with quiet|]. intros paths.
  apply quiet_for_each. intros. apply quiet_list_row.
Qed.

Lemma quiet_list_command (args : ListArgs) : quiet (list_command os th args).
Proof.
  unfold list_command. apply quiet_bind; [auto with quiet|]. intros repo_root.
  apply quiet_bind; [auto with quiet|]. intros ex.
  destruct (negb ex); [auto with quiet|].
  apply quiet_bind.
  - apply quiet_for_each. intros. apply quiet_list_lane.
  - intros rows. destruct rows; auto with quiet.
Qed.

Lemma quiet_status_command (args : StatusArgs) : quiet (status_command th acc args).
Proof.
  unfold status_command. pose proof (quiet_resolve_feature acc). quiet_steps.
Qed.

Lemma quiet_verify_command (args : StatusArgs) : quiet (verify_command th acc args).
Proof.
  unfold verify_command. pose proof (quiet_resolve_feature acc). quiet_steps.
Qed.

Lemma resolve_feature_world (repo_root : Path.t) (requested : option string) (w : World) :
  snd (_resolve_feature acc repo_root requested w) = w.
Proof.
  unfold _resolve_feature. now destruct (truthy requested).
Qed.

End ReadOnly.

(** X1. [list], [status] and [verify] only read: whatever their arguments,
    the world they start in and their outcome, they make no mkdir, write,
    git or acceptance call. *)
Theorem reporting_commands_make_no_call (os : Os) (th : TaskHelpers)
    (acc : AcceptanceSupport) (w : World) :
  (forall args, calls (snd (list_command os th args w)) = calls w)
  /\ (forall args, calls (snd (status_command th acc args w)) = calls w)
  /\ (forall args, calls (snd (verify_command th acc args w)) = calls w).
Proof.
  split; [|split]; intros args.
  - apply quiet_list_command.
  - apply quiet_status_command.
  - apply quiet_verify_command.
Qed.

(** X2. [main] turns a TaskCliError into an exit code: it never raises one.
    When the command returns, [main] returns 0; when the command raises a
    TaskCliError, [main] prints "Error: " and the message on the standard
    error and returns 1, the calls and the standard output being those of
    the command; any other exception, [SystemExit] among them, passes
    through. *)
Theorem main_handles_task_errors (os : Os) (th : TaskHelpers) (acc : AcceptanceSupport)
    (command : Command) (w : World) :
  (forall msg, fst (main os th acc command w) <> Raise (TaskCliError msg))
  /\ match dispatch os th acc command w with
     | (Return _, w') => main os th acc command w = (Return 0%Z, w')
     | (Raise (TaskCliError msg), w') =>
         main os th acc command w
         = (Return 1%Z, mkWorld (calls w') (stdout w') (stderr w' ++ ["Error: " +:+ msg]))
     | (Raise e, w') => main os th acc command w = (Raise e, w')
     end.
Proof.
  assert (main os th acc command w
          = except_TaskCliError (dispatch os th acc command ;; mret 0%Z)
              (fun exc => eprint ("Error: " +:+ exc) ;; mret 1%Z) w) as Hmain
    by (destruct command; reflexivity).
  rewrite Hmain. unfold except_TaskCliError. rewrite bind_eq.
  destruct (dispatch os th acc command w) as [[u|e] w']; simpl.
  - split; [discriminate | reflexivity].
  - destruct e; simpl; (split; [discriminate | reflexivity]).
Qed.

Section StatusVerify.

Context (th : TaskHelpers) (acc : AcceptanceSupport).

Lemma status_verify_same_world (args : StatusArgs) (w : World) :
  snd (verify_command th acc args w) = snd (status_command th acc args w).
Proof.
  unfold verify_command, status_command. rewrite !bind_eq.
  unfold ask at 1 3.
  destruct (find_repo_root th w) as [repo_root|e]; [|reflexivity].
  rewrite !bind_eq.
  destruct (_resolve_feature acc repo_root (sa_feature args) w) as [[feature|e] w1];
    [|reflexivity].
  rewrite !bind_eq. unfold ask at 1 2.
  destruct (collect_feature_summary acc repo_root feature _ w1) as [summary|e];
    [|reflexivity].
  destruct (sa_json args).
  - rewrite bind_eq. reflexivity.
  - rewrite bind_eq, print_lines_eq. reflexivity.
Qed.

End StatusVerify.

(** X3. [verify] is [status] with an exit code.  Both leave the same world
    behind, whatever happens.  Once the repository, the feature and its
    summary are found, [status] returns, whether the summary is ok or not,
    having printed the JSON of the summary or the lines of its text, and
    [verify] has printed the same and exits with status 0 when the summary
    is ok and 1 when it is not. *)
Theorem verify_is_status_with_exit_code (th : TaskHelpers) (acc : AcceptanceSupport)
    (args : StatusArgs) (w : World) :
  snd (verify_command th acc args w) = snd (status_command th acc args w)
  /\ forall repo_root feature summary,
       find_repo_root th w = Return repo_root ->
       _resolve_feature acc repo_root (sa_feature args) w = (Return feature, w) ->
       collect_feature_summary acc repo_root feature (negb (sa_lenient args)) w
       = Return summary ->
       let after :=
         mkWorld (calls w)
           (stdout w ++ if sa_json args then [summary_json acc summary]
                        else _summary_to_text th summary)
           (stderr w) in
       status_command th acc args w = (Return tt, after)
       /\ verify_command th acc args w
          = (Raise (SystemExit (if as_ok summary then 0 else 1)), after).
Proof.
  split; [apply status_verify_same_world|].
  intros repo_root feature summary Hroot Hfeat Hsum. simpl.
  unfold status_command, verify_command.
  rewrite !(bind_Return _ _ _ _ _ (ask_Return _ _ _ Hroot)).
  rewrite !(bind_Return _ _ _ _ _ Hfeat).
  rewrite !(bind_Return _ _ _ _ _ (ask_Return _ _ _ Hsum)).
  destruct (sa_json args).
  - rewrite bind_eq. split; reflexivity.
  - rewrite bind_eq, print_lines_eq. split; reflexivity.
Qed.

(** X4. In checklist mode [accept] only reports.  Once the repository, the
    feature and its summary are found and the mode is "checklist",
    [accept_command] prints the JSON of the summary or the lines of its
    text and exits with status 0 when the summary is ok and 1 when it is
    not, without any call: [perform_acceptance] does not run, whatever
    [--allow-fail] and [--no-commit] say. *)
Theorem accept_checklist_only_reports (os : Os) (th : TaskHelpers)
    (acc : AcceptanceSupport) (args : AcceptArgs) (w : World) (repo_root : Path.t)
    (feature : string) (summary : AcceptanceSummary) :
  find_repo_root th w = Return repo_root ->
  _resolve_feature acc repo_root (aa_feature args) w = (Return feature, w) ->
  collect_feature_summary acc repo_root feature (negb (aa_lenient args)) w = Return summary ->
  aa_mode args = "checklist" ->
  accept_command os th acc args w
  = (Raise (SystemExit (if as_ok summary then 0 else 1)),
     mkWorld (calls w)
       (stdout w ++ if aa_json args then [summary_json acc summary]
                    else _summary_to_text th summary)
       (stderr w)).
Proof.
  intros Hroot Hfeat Hsum Hmode. unfold accept_command.
  rewrite (bind_Return _ _ _ _ _ (ask_Return _ _ _ Hroot)).
  rewrite (bind_Return _ _ _ _ _ Hfeat).
  rewrite (bind_Return _ _ _ _ _ (ask_Return _ _ _ Hsum)).
  rewrite Hmode. simpl.
  destruct (aa_json args).
  - rewrite bind_eq. reflexivity.
  - rewrite bind_eq, print_lines_eq. reflexivity.
Qed.

(** X5. An AcceptanceError of the acceptance ends [accept] with status 1.
    Outside checklist mode, with a summary that is ok or with
    [--allow-fail], when [perform_acceptance] raises an AcceptanceError the
    command prints "Error: " and the message on the standard error, adds
    nothing to the standard output, and exits with status 1. *)
Theorem accept_reports_acceptance_error (os : Os) (th : TaskHelpers)
    (acc : AcceptanceSupport) (args : AcceptArgs) (w w1 : World) (repo_root : Path.t)
    (feature msg : string) (summary : AcceptanceSummary) :
  find_repo_root th w = Return repo_root ->
  _resolve_feature acc repo_root (aa_feature args) w = (Return feature, w) ->
  collect_feature_summary acc repo_root feature (negb (aa_lenient args)) w = Return summary ->
  aa_mode args <> "checklist" ->
  as_ok summary = true \/ aa_allow_fail args = true ->
  perform_acceptance os acc summary (choose_mode acc (aa_mode args) repo_root w)
    (aa_actor args) (default [] (aa_test args)) (negb (aa_no_commit args)) w
  = (Raise (AcceptanceError msg), w1) ->
  accept_command os th acc args w
  = (Raise (SystemExit 1),
     mkWorld (calls w1) (stdout w1) (stderr w1 ++ ["Error: " +:+ msg])).
Proof.
  intros Hroot Hfeat Hsum Hmode Hgo Hacc.
  rewrite (accept_command_check os th acc args w repo_root feature summary
             Hroot Hfeat Hsum Hmode).
  assert (negb (as_ok summary) && negb (aa_allow_fail args) = false) as ->.
  { destruct Hgo as [-> | ->]; [reflexivity | apply andb_false_r]. }
  rewrite bind_eq. unfold except_AcceptanceError. rewrite Hacc.
  rewrite bind_eq. reflexivity.
Qed.

Section HistoryWrites.

Context (os : Os) (th : TaskHelpers).

(** A [history] that is no dry run, for a located work package whose lane
    is accepted, up to its write. *)
Lemma history_command_write (args : HistoryArgs) (w : World) (repo_root : Path.t)
    (wp : WorkPackage) (lane : string) :
  ha_dry_run args = false ->
  find_repo_root th w = Return repo_root ->
  locate_work_package th repo_root (ha_feature args) (ha_work_package args) w = Return wp ->
  ensure_lane th (py_or_str (ha_lane args) (wp_current_lane wp)) = Return lane ->
  let log_entry :=
    ActivityLog.log_entry (timestamp_or_now th (ha_timestamp args) w)
      (agent_or_default th (ha_agent args) wp)
      (shell_pid_or_default th (ha_shell_pid args) wp) lane
      (normalize_note th (Some (ha_note args)) lane) in
  let wp' := with_frontmatter (history_frontmatter th args wp lane) wp in
  history_command os th args w =
  (write_text os (wp_path wp)
     (Document.build_document (history_frontmatter th args wp lane)
        (ActivityLog.append_activity_log (wp_body wp) log_entry) (wp_padding wp)) ;;
   rel ← relative_to (wp_path wp) repo_root;
   run_git os ["add"; Path.str rel] repo_root ;;
   print ("📝 Appended activity for " +:+ display_name th wp') ;;
   print ("   " +:+ log_entry)) w.
Proof.
  intros Hdry Hroot Hwp Hlane. simpl. unfold history_command. rewrite Hdry.
  rewrite (bind_Return _ _ _ _ _ (ask_Return _ _ _ Hroot)).
  rewrite (bind_Return _ _ _ _ _ (ask_Return _ _ _ Hwp)).
  rewrite Hlane. rewrite bind_eq. unfold lift at 1.
  unfold or_now. rewrite bind_eq. unfold asks at 1.
  unfold history_frontmatter. clear Hwp.
  destruct (String.eqb lane (wp_current_lane wp));
    destruct (ha_update_shell args && _);
    destruct (ha_assignee args);
    destruct (truthy (ha_agent args)); destruct wp; reflexivity.
Qed.

End HistoryWrites.

(** X6. A [history] rewrites the work package where it is.  When a [history]
    that is no dry run returns, for a located work package whose lane is
    accepted, it has made two calls: the write, at the path of the work
    package, of the document built from the frontmatter (with the lane set
    if it changes, the shell PID if [--update-shell] is given and the PID is
    not empty, the assignee if given, the agent if given), from the body
    with the log entry appended and from the padding; and the [git add] of
    that path.  Nothing is created, moved or removed, and the log entry is
    the last line printed. *)
Theorem history_rewrites_in_place (os : Os) (th : TaskHelpers)
    (args : HistoryArgs) (w w' : World) (repo_root : Path.t) (wp : WorkPackage)
    (lane : string) :
  ha_dry_run args = false ->
  find_repo_root th w = Return repo_root ->
  locate_work_package th repo_root (ha_feature args) (ha_work_package args) w = Return wp ->
  ensure_lane th (py_or_str (ha_lane args) (wp_current_lane wp)) = Return lane ->
  history_command os th args w = (Return tt, w') ->
  let log_entry :=
    ActivityLog.log_entry (timestamp_or_now th (ha_timestamp args) w)
      (py_or_str (py_or (ha_agent args) (agent th wp)) "system")
      (py_or_str (py_or (ha_shell_pid args) (shell_pid th wp)) "") lane
      (normalize_note th (Some (ha_note args)) lane) in
  exists rel first_line,
    Path.relative_to (wp_path wp) repo_root = Some rel
    /\ calls w' =
       calls w
       ++ [WriteText (wp_path wp)
             (Document.build_document (history_frontmatter th args wp lane)
                (ActivityLog.append_activity_log (wp_body wp) log_entry) (wp_padding wp));
           RunGit ["add"; Path.str rel] repo_root]
    /\ stdout w' = stdout w ++ [first_line; "   " +:+ log_entry].
Proof.
  intros Hdry Hroot Hwp Hlane H. simpl.
  rewrite (history_command_write os th args w repo_root wp lane Hdry Hroot Hwp Hlane) in H.
  unfold write_text, run_git, relative_to in H.
  inv_bind H. apply perform_Return_inv in Hstep as ->.
  inv_bind H as rel w1 Hrel. apply lift_option_Return_inv in Hrel as [Hrel ->].
  inv_bind H. apply perform_Return_inv in Hstep as ->.
  rewrite bind_eq in H. unfold print in H. inversion H. simpl.
  exists rel. eexists. split; [assumption|].
  split; [now rewrite <- app_assoc | now rewrite <- app_assoc].
Qed.

(** X7. A plain [history] leaves the frontmatter alone.  Without [--lane]
    (or with the current lane), without [--update-shell], [--assignee] and
    [--agent], and with a current lane that [ensure_lane] returns as it is,
    the document that a [history] which returns has written has the
    frontmatter and the padding of the work package; only the body has
    changed, by the log entry. *)
Theorem plain_history_keeps_frontmatter (os : Os) (th : TaskHelpers)
    (args : HistoryArgs) (w w' : World) (repo_root : Path.t) (wp : WorkPackage) :
  ha_dry_run args = false ->
  find_repo_root th w = Return repo_root ->
  locate_work_package th repo_root (ha_feature args) (ha_work_package args) w = Return wp ->
  ensure_lane th (py_or_str (ha_lane args) (wp_current_lane wp))
  = Return (wp_current_lane wp) ->
  ha_update_shell args = false ->
  ha_assignee args = None ->
  truthy (ha_agent args) = false ->
  history_command os th args w = (Return tt, w') ->
  In (WriteText (wp_path wp)
        (Document.build_document (wp_frontmatter wp)
           (ActivityLog.append_activity_log (wp_body wp)
              (ActivityLog.log_entry (timestamp_or_now th (ha_timestamp args) w)
                 (py_or_str (py_or (ha_agent args) (agent th wp)) "system")
                 (py_or_str (py_or (ha_shell_pid args) (shell_pid th wp)) "")
                 (wp_current_lane wp)
                 (normalize_note th (Some (ha_note args)) (wp_current_lane wp))))
           (wp_padding wp)))
     (calls w').
Proof.
  intros Hdry Hroot Hwp Hlane Hshell Hassignee Hagent H.
  rewrite (history_command_write os th args w repo_root wp _ Hdry Hroot Hwp Hlane) in H.
  assert (history_frontmatter th args wp (wp_current_lane wp) = wp_frontmatter wp) as Hfm.
  { unfold history_frontmatter.
    now rewrite String.eqb_refl, Hshell, Hassignee, Hagent. }
  rewrite Hfm in H. unfold write_text, run_git, relative_to in H.
  inv_bind H. apply perform_Return_inv in Hstep as ->.
  inv_bind H as rel w1 Hrel. apply lift_option_Return_inv in Hrel as [Hrel ->].
  inv_bind H. apply perform_Return_inv in Hstep as ->.
  rewrite bind_eq in H. unfold print in H. inversion H. simpl.
  apply in_or_app. left. apply in_or_app. right. left. reflexivity.
Qed.

(** X8. A lane that [ensure_lane] rejects stops a [history] before anything
    happens: for a located work package, the error of [ensure_lane] on the
    lane given, or on the current lane when none is given, is raised and the
    world is as before, dry run or not. *)
Theorem history_rejects_invalid_lane (os : Os) (th : TaskHelpers)
    (args : HistoryArgs) (w : World) (repo_root : Path.t) (wp : WorkPackage) (e : Exn) :
  find_repo_root th w = Return repo_root ->
  locate_work_package th repo_root (ha_feature args) (ha_work_package args) w = Return wp ->
  ensure_lane th (py_or_str (ha_lane args) (wp_current_lane wp)) = Raise e ->
  history_command os th args w = (Raise e, w).
Proof.
  intros Hroot Hwp Hlane. unfold history_command.
  rewrite (bind_Return _ _ _ _ _ (ask_Return _ _ _ Hroot)).
  rewrite (bind_Return _ _ _ _ _ (ask_Return _ _ _ Hwp)).
  now rewrite Hlane.
Qed.

Section RollbackFacts.

Context (os : Os) (th : TaskHelpers).

Lemma quiet_from_end {A : Type} (entries : list A) (k : nat) : quiet (from_end entries k).
Proof. unfold from_end. auto with quiet. Qed.

End RollbackFacts.

(** X9. A dry run of [rollback] touches nothing: with [--dry-run], whatever
    the work package, its log and the outcome, no mkdir, write or git call
    is made. *)
Theorem rollback_dry_run_makes_no_call (os : Os) (th : TaskHelpers)
    (args : RollbackArgs) (w : World) :
  ra_dry_run args = true ->
  calls (snd (rollback_command os th args w)) = calls w.
Proof.
  intros Hdry. revert w. change (quiet (rollback_command os th args)).
  unfold rollback_command.
  apply quiet_bind; [auto with quiet|]. intros repo_root.
  apply quiet_bind; [auto with quiet|]. intros wp.
  destruct (_ <? 2); [auto with quiet|].
  apply quiet_bind; [apply quiet_from_end|]. intros before_last.
  apply quiet_bind; [auto with quiet|]. intros previous_lane.
  apply quiet_bind; [apply quiet_from_end|]. intros last.
  apply quiet_bind; [apply quiet_or_now|]. intros timestamp.
  apply quiet_move_dry_run. exact Hdry.
Qed.

(** X10. A rollback cannot stay in the lane.  When the entry before the last
    names the lane the work package is in (the last entry was logged
    without a move), [rollback_command] raises the TaskCliError "Work
    package already in lane ..." of the move, and the world is as before. *)
Theorem rollback_to_current_lane_refused (os : Os) (th : TaskHelpers)
    (args : RollbackArgs) (w : World) (repo_root : Path.t) (wp : WorkPackage)
    (earlier : list ActivityLog.Entry) (before_last last : ActivityLog.Entry) :
  find_repo_root th w = Return repo_root ->
  locate_work_package th repo_root (ra_feature args) (ra_work_package args) w = Return wp ->
  ActivityLog.activity_entries (wp_body wp) = earlier ++ [before_last; last] ->
  ensure_lane th (ActivityLog.lane before_last) = Return (wp_current_lane wp) ->
  rollback_command os th args w
  = (Raise (TaskCliError
              ("Work package already in lane '" +:+ wp_current_lane wp +:+ "'.")), w).
Proof.
  intros Hroot Hwp Hentries Hlane. unfold rollback_command.
  rewrite (bind_Return _ _ _ _ _ (ask_Return _ _ _ Hroot)).
  rewrite (bind_Return _ _ _ _ _ (ask_Return _ _ _ Hwp)).
  rewrite Hentries.
  destruct (Nat.ltb_spec (length (earlier ++ [before_last; last])) 2) as [Hlen|_].
  { rewrite length_app in Hlen. simpl in Hlen. lia. }
  destruct (from_end_last_two earlier before_last last w) as [H2 H1].
  rewrite (bind_Return _ _ _ _ _ H2). rewrite Hlane.
  rewrite bind_eq. unfold lift at 1.
  rewrite (bind_Return _ _ _ _ _ H1).
  unfold or_now. rewrite bind_eq. unfold asks at 1.
  unfold move_command. cbn [ma_feature ma_work_package ma_lane].
  rewrite (bind_Return _ _ _ _ _ (ask_Return _ _ _ Hroot)).
  rewrite (bind_Return _ _ _ _ _ (ask_Return _ _ _ Hwp)).
  now rewrite String.eqb_refl.
Qed.

Section EmptyListing.

Context (os : Os) (th : TaskHelpers).

Lemma for_each_list_lane_empty (args : ListArgs) (repo_root feature_dir : Path.t)
    (lanes : list string) (rows : list Row) (w : World) :
  (forall lane, In lane lanes ->
     path_exists os (feature_dir // lane) w = false
     \/ rglob_md os (feature_dir // lane) w = []) ->
  for_each lanes (list_lane os th args repo_root feature_dir) rows w = (Return rows, w).
Proof.
  induction lanes as [|lane lanes IH]; intros Hempty; [reflexivity|].
  simpl. rewrite bind_eq.
  assert (list_lane os th args repo_root feature_dir rows lane w = (Return rows, w)) as ->.
  { unfold list_lane. rewrite bind_eq. unfold asks at 1.
    destruct (path_exists os (feature_dir // lane) w) eqn:Hex; [|reflexivity].
    simpl. rewrite bind_eq. unfold asks at 1.
    destruct (Hempty lane (or_introl eq_refl)) as [Hno|Hnone]; [congruence|].
    rewrite Hnone. reflexivity. }
  apply IH. intros l Hl. apply Hempty. now right.
Qed.

End EmptyListing.

(** X11. What [list] does when there is nothing to list.  When the feature
    has no tasks directory, [list_command] raises a TaskCliError that names
    the feature and the directory, and the world is as before.  When it has
    one and every lane of [LANES] either has no directory or has no
    markdown file under it, [list_command] returns having printed the
    notice that no work package was found, and no table. *)
Theorem list_with_nothing_to_list (os : Os) (th : TaskHelpers)
    (args : ListArgs) (w : World) (repo_root : Path.t) :
  find_repo_root th w = Return repo_root ->
  let feature_dir := repo_root // "kitty-specs" // la_feature args // "tasks" in
  (path_exists os feature_dir w = false ->
   list_command os th args w
   = (Raise (TaskCliError ("Feature '" +:+ la_feature args
                           +:+ "' has no tasks directory at "
                           +:+ Path.str feature_dir +:+ ".")), w))
  /\ (path_exists os feature_dir w = true ->
      (forall lane, In lane (LANES th) ->
         path_exists os (feature_dir // lane) w = false
         \/ rglob_md os (feature_dir // lane) w = []) ->
      list_command os th args w
      = (Return tt,
         mkWorld (calls w)
           (stdout w ++ ["No work packages found for feature '" +:+ la_feature args +:+ "'."])
           (stderr w))).
Proof.
  intros Hroot feature_dir. split.
  - intros Hex. unfold list_command.
    rewrite (bind_Return _ _ _ _ _ (ask_Return _ _ _ Hroot)).
    rewrite bind_eq. unfold asks at 1. fold feature_dir. now rewrite Hex.
  - intros Hex Hempty. unfold list_command.
    rewrite (bind_Return _ _ _ _ _ (ask_Return _ _ _ Hroot)).
    rewrite bind_eq. unfold asks at 1. fold feature_dir. rewrite Hex. simpl.
    rewrite bind_eq.
    now rewrite (for_each_list_lane_empty os th args repo_root feature_dir
                   (LANES th) [] w Hempty).
Qed.

Section TableFacts.

Lemma len_append (a b : string) : Str.len (a +:+ b) = Str.len a + Str.len b.
Proof.
  induction a as [|c a IH]; [reflexivity|].
  rewrite append_cons. simpl. rewrite IH. now destruct (Str.is_continuation c).
Qed.

Lemma len_times (c : string) (n : nat) : Str.len (Str.times c n) = n * Str.len c.
Proof.
  unfold Str.times. induction n as [|n IH]; [reflexivity|].
  simpl replicate. destruct n as [|n].
  - simpl. lia.
  - change (String.concat "" (c :: replicate (S n) c))
      with (c +:+ "" +:+ String.concat "" (replicate (S n) c)).
    rewrite !len_append, IH. simpl. lia.
Qed.

Lemma ljust_len (s : string) (width : nat) :
  Str.len (Str.ljust s width) = Nat.max (Str.len s) width.
Proof.
  unfold Str.ljust. rewrite len_append, len_times. simpl. lia.
Qed.

Lemma max_len_ge (key : Row -> string) (rows : list Row) (row : Row) :
  In row rows -> Str.len (key row) <= max_len key rows.
Proof.
  induction rows as [|r rows IH]; [contradiction|].
  intros [->|Hin]; simpl; [lia|]. specialize (IH Hin). lia.
Qed.

Lemma any_nonempty_false (key : Row -> string) (rows : list Row) (row : Row) :
  any_nonempty key rows = false -> In row rows -> key row = "".
Proof.
  unfold any_nonempty. intros Hnone Hin.
  destruct (String.eqb_spec (key row) "") as [|Hne]; [assumption|].
  assert (existsb (fun row => negb (String.eqb (key row) "")) rows = true) as Hex.
  { apply existsb_exists. exists row. split; [assumption|].
    apply String.eqb_neq in Hne. now rewrite Hne. }
  congruence.
Qed.

(** A cell of a column of the table is as wide as the column. *)
Lemma cell_width (key : Row -> string) (rows : list Row) (row : Row) (default : nat) :
  In row rows ->
  Str.len
    (Str.ljust (key row)
       (if any_nonempty key rows then max_len key rows else default))
  = if any_nonempty key rows then max_len key rows else default.
Proof.
  intros Hin. rewrite ljust_len.
  destruct (any_nonempty key rows) eqn:Hany.
  - pose proof (max_len_ge key rows row Hin). lia.
  - rewrite (any_nonempty_false key rows row Hany Hin). simpl. lia.
Qed.

End TableFacts.

(** X12. The rows of the [list] table line up.  The table of a list of rows
    is a heading, a rule of as many characters as the heading, and one line
    for each row, in order; in each of these lines the four padded cells
    take the same number of characters whatever the row, so that the title,
    followed by the path in brackets, starts at the same column in every
    row. *)
Theorem list_table_rows_line_up (rows : list Row) :
  exists heading rule lines,
    list_table rows = heading :: rule :: lines
    /\ Str.len rule = Str.len heading
    /\ Forall2
         (fun row line =>
            exists cells,
              line = cells +:+ row_title row +:+ " (" +:+ row_path row +:+ ")"
              /\ Str.len cells = title_column rows)
         rows lines.
Proof.
  unfold list_table. do 3 eexists. split; [reflexivity|]. split.
  - rewrite len_times. simpl. lia.
  - apply Forall2_fmap_r, Forall_Forall2_diag, Forall_forall.
    intros row Hin%list_elem_of_In.
    exists (Str.ljust (row_lane row) (max_len row_lane rows) +:+ "  "
            +:+ Str.ljust (row_id row) (max_len row_id rows) +:+ "  "
            +:+ Str.ljust (row_agent row)
                  (if any_nonempty row_agent rows then max_len row_agent rows else 5)
            +:+ "  "
            +:+ Str.ljust (row_assignee row)
                  (if any_nonempty row_assignee rows then max_len row_assignee rows else 8)
            +:+ "  ").
    split.
    + now rewrite !append_assoc.
    + rewrite !len_append.
      rewrite (cell_width row_agent rows row 5 Hin).
      rewrite (cell_width row_assignee rows row 8 Hin).
      rewrite !ljust_len.
      pose proof (max_len_ge row_lane rows row Hin).
      pose proof (max_len_ge row_id rows row Hin).
      unfold title_column. simpl. lia.
Qed.

(** A row whose agent is not written in ASCII: the rule is as long as the
    heading in characters, and shorter in bytes. *)
Example list_table_counts_characters :
  let rows := [mkRow "doing" "WP01" "Title" "" "zoë-bot" "tasks/doing/WP01.md"] in
  nth 1 (list_table rows) "" = Str.times "-" 37
  /\ Str.len (nth 0 (list_table rows) "") = 37
  /\ Str.len (row_agent (nth 0 rows (mkRow "" "" "" "" "" ""))) = 7
  /\ String.length (row_agent (nth 0 rows (mkRow "" "" "" "" "" ""))) = 8.
Proof. vm_compute. repeat split. Qed.

(** X13. A move that fails stops where it fails.  Whatever happens, the
    calls of a [stage_move] that is no dry run are a beginning, never empty,
    of: the mkdir, the write, the [git add], the [git rm]; so nothing is
    staged that was not written, and the old file is removed only after the
    new one is staged.  It prints nothing, and when it returns all of these
    calls are made. *)
Theorem stage_move_stops_at_failure (os : Os) (th : TaskHelpers) (repo_root : Path.t)
    (wp : WorkPackage) (target_lane agent shell_pid note timestamp : string) (w : World) :
  let result :=
    stage_move os th repo_root wp target_lane agent shell_pid note timestamp false w in
  let steps :=
    stage_move_steps os th repo_root wp target_lane agent shell_pid note timestamp in
  exists done,
    calls (snd result) = calls w ++ done
    /\ done `prefix_of` steps
    /\ done <> []
    /\ stdout (snd result) = stdout w
    /\ stderr (snd result) = stderr w
    /\ (forall staged, fst result = Return staged -> done = steps).
Proof.
  simpl. unfold stage_move, stage_move_steps, mkdir, write_text, run_git, relative_to, perform.
  cbn [wp_path with_frontmatter wp_body wp_padding wp_frontmatter].
  rewrite bind_eq.
  destruct (call_error os (Mkdir _) w).
  { eexists. split; [reflexivity|]. simpl.
    split; [eexists; reflexivity|]. repeat split; discriminate. }
  rewrite bind_eq.
  destruct (call_error os (WriteText _ _) _).
  { eexists. split; [simpl; rewrite <- app_assoc; reflexivity|]. simpl.
    split; [eexists; reflexivity|]. repeat split; discriminate. }
  rewrite bind_eq. unfold lift_option.
  destruct (Path.relative_to (resolve os _) repo_root) as [new_rel|].
  2:{ eexists. split; [simpl; rewrite <- app_assoc; reflexivity|]. simpl.
      split; [eexists; rewrite app_nil_r; reflexivity|]. repeat split; discriminate. }
  cbn [mret M_ret]. rewrite bind_eq.
  destruct (call_error os (RunGit ("add" :: _) _) _).
  { eexists. split; [simpl; rewrite <- !app_assoc; reflexivity|]. simpl.
    split; [eexists; reflexivity|]. repeat split; discriminate. }
  rewrite bind_eq.
  case_bool_decide as Hsame.
  { cbn [mret M_ret]. eexists.
    split; [simpl; rewrite <- !app_assoc; reflexivity|]. simpl.
    split; [eexists; rewrite app_nil_r; reflexivity|]. repeat split; discriminate. }
  rewrite bind_eq.
  destruct (Path.relative_to (wp_path wp) repo_root) as [old_rel|].
  2:{ eexists. split; [simpl; rewrite <- !app_assoc; reflexivity|]. simpl.
      split; [eexists; rewrite app_nil_r; reflexivity|]. repeat split; discriminate. }
  cbn [mret M_ret].
  destruct (call_error os (RunGit ("rm" :: _) _) _).
  { eexists. split; [simpl; rewrite <- !app_assoc; reflexivity|]. simpl.
    split; [eexists; rewrite app_nil_r; reflexivity|]. repeat split; discriminate. }
  eexists. split; [simpl; rewrite <- !app_assoc; reflexivity|]. simpl.
  split; [eexists; rewrite app_nil_r; reflexivity|]. repeat split; discriminate.
Qed.

(** X14. What a dry run of [move] prints.  For a located work package in
    another lane than the target, with no conflict or with [--force], and
    with a target path that lies in the repository, a dry run of
    [move_command] returns having printed two lines, the work package with
    the target lane and the new path relative to the repository, and the
    world is otherwise as before. *)
Theorem move_dry_run_report (os : Os) (th : TaskHelpers)
    (args : MoveArgs) (w : World) (repo_root : Path.t) (wp : WorkPackage)
    (status_lines : list string) (old_rel new_rel target_rel : Path.t) :
  find_repo_root th w = Return repo_root ->
  locate_work_package th repo_root (ma_feature args) (ma_work_package args) w = Return wp ->
  wp_current_lane wp <> ma_lane args ->
  git_status_lines th repo_root w = Return status_lines ->
  Path.relative_to (wp_path wp) repo_root = Some old_rel ->
  Path.relative_to
    (Path.join (lane_dir repo_root (ma_feature args) (ma_lane args)) (wp_relative_subpath wp))
    repo_root = Some new_rel ->
  detect_conflicting_wp_status th status_lines (ma_feature args) old_rel new_rel = []
  \/ ma_force args = true ->
  ma_dry_run args = true ->
  Path.relative_to
    (resolve os
       (Path.join (lane_dir repo_root (wp_feature wp) (ma_lane args))
          (wp_relative_subpath wp)))
    repo_root = Some target_rel ->
  move_command os th args w
  = (Return tt,
     mkWorld (calls w)
       (stdout w
        ++ ["[dry-run] Would move "
            +:+ py_or_str (work_package_id th wp) (Path.name (wp_path wp))
            +:+ " to lane '" +:+ ma_lane args +:+ "'";
            "[dry-run] New path: " +:+ Path.str target_rel])
       (stderr w)).
Proof.
  intros Hroot Hwp Hlane Hstatus Hold Hnew Hgo Hdry Htarget.
  rewrite (move_command_conflict_check os th args w repo_root wp status_lines
             old_rel new_rel Hroot Hwp Hlane Hstatus Hold Hnew).
  assert (negb (bool_decide
                  (detect_conflicting_wp_status th status_lines (ma_feature args)
                     old_rel new_rel = []))
          && negb (ma_force args) = false) as ->.
  { destruct Hgo as [-> | ->]; [reflexivity | apply andb_false_r]. }
  rewrite Hdry, bind_eq, stage_move_dry_run.
  unfold move_report. rewrite Hdry.
  rewrite bind_eq. unfold print at 1.
  unfold relative_to. rewrite Htarget. unfold lift_option.
  rewrite bind_eq. cbn [mret M_ret]. unfold print. simpl.
  now rewrite <- app_assoc.
Qed.

(** X15. A move prints the log line it has written.  When a move of a
    located work package that is no dry run returns, it has printed three
    lines: the work package, named from the frontmatter as rewritten, with
    the target lane; the old and the new path relative to the repository;
    and, after "Logged: ", the very log entry that is appended to the body
    of the document it has written.  Nothing goes to the standard error. *)
Theorem move_prints_what_it_logs (os : Os) (th : TaskHelpers)
    (args : MoveArgs) (w w' : World) (repo_root : Path.t) (wp : WorkPackage) :
  find_repo_root th w = Return repo_root ->
  locate_work_package th repo_root (ma_feature args) (ma_work_package args) w = Return wp ->
  ma_dry_run args = false ->
  move_command os th args w = (Return tt, w') ->
  let lane := ma_lane args in
  let agent := py_or_str (py_or (ma_agent args) (agent th wp)) "system" in
  let shell_pid := py_or_str (py_or (ma_shell_pid args) (shell_pid th wp)) "" in
  let log_entry :=
    ActivityLog.log_entry (timestamp_or_now th (ma_timestamp args) w) agent shell_pid lane
      (normalize_note th (ma_note args) lane) in
  let frontmatter := moved_frontmatter th (wp_frontmatter wp) lane agent shell_pid in
  let new_path :=
    resolve os (Path.join (lane_dir repo_root (wp_feature wp) lane)
                  (wp_relative_subpath wp)) in
  exists old_rel new_rel,
    Path.relative_to (wp_path wp) repo_root = Some old_rel
    /\ Path.relative_to new_path repo_root = Some new_rel
    /\ stdout w' =
       stdout w
       ++ ["✅ Moved "
           +:+ py_or_str (work_package_id th (with_frontmatter frontmatter wp))
                 (Path.name (wp_path wp))
           +:+ " → " +:+ lane;
           "   " +:+ Path.str old_rel +:+ " → " +:+ Path.str new_rel;
           "   Logged: " +:+ log_entry]
    /\ stderr w' = stderr w
    /\ In (WriteText new_path
             (Document.build_document frontmatter
                (ActivityLog.append_activity_log (wp_body wp) log_entry) (wp_padding wp)))
          (calls w').
Proof.
  intros Hroot Hwp Hdry H. simpl.
  unfold move_command in H.
  rewrite (bind_Return _ _ _ _ _ (ask_Return _ _ _ Hroot)) in H.
  rewrite (bind_Return _ _ _ _ _ (ask_Return _ _ _ Hwp)) in H.
  destruct (String.eqb (wp_current_lane wp) (ma_lane args)); [discriminate|].
  inv_bind H. apply asks_Return_inv in Hstep as [-> ->].
  inv_bind H. apply ask_Return_inv in Hstep as [Hstatus ->].
  inv_bind H as old_rel w1 Hold. apply lift_option_Return_inv in Hold as [Hold ->].
  inv_bind H. apply lift_option_Return_inv in Hstep as [Hnew ->].
  destruct (negb _ && negb _); [discriminate|].
  inv_bind H as staged w1 Hstage. rewrite Hdry in Hstage.
  apply stage_move_Return in Hstage as (-> & Hout & Herr & new_rel & Hrel & Hcalls).
  unfold move_report in H. rewrite Hdry in H. unfold relative_to in H.
  cbn [wp_path with_frontmatter] in H.
  rewrite bind_eq in H. unfold print at 1 in H.
  rewrite Hold, Hrel in H. unfold lift_option in H.
  rewrite !bind_eq in H. cbn [mret M_ret] in H.
  rewrite bind_eq in H. unfold print in H. inversion H. simpl.
  exists old_rel, new_rel. split; [assumption|]. split; [assumption|].
  split; [rewrite Hout, <- !app_assoc; reflexivity|].
  split; [assumption|].
  destruct Hcalls as [[_ ->] | (_ & old_rel' & _ & ->)];
    apply in_or_app; right; right; left; reflexivity.
Qed.

(** X16. The [--assignee] of a [move] has no effect: whatever it is, the
    outcome of [move_command], the calls it makes and what it prints are the
    same; the assignee of the work package is neither set nor logged. *)
Theorem move_ignores_assignee (os : Os) (th : TaskHelpers) (args : MoveArgs)
    (assignee : option string) (w : World) :
  move_command os th (with_assignee assignee args) w = move_command os th args w.
Proof.
  unfold move_command, with_assignee, move_report.
  cbn [ma_feature ma_work_package ma_lane ma_note ma_agent ma_shell_pid ma_timestamp
       ma_dry_run ma_force].
  reflexivity.
Qed.

Section Verdict.

Context (th : TaskHelpers).

Lemma passed_line_not_indented (a b : string) :
  "All acceptance checks passed." <> "  " +:+ a +:+ b.
Proof. rewrite !append_cons. discriminate. Qed.

Lemma outstanding_heading_not_indented (a b : string) :
  "Outstanding items:" <> "  " +:+ a +:+ b.
Proof. rewrite !append_cons. discriminate. Qed.

Lemma not_in_lane_lines (summary : AcceptanceSummary) (line : string) :
  (forall a b, line <> "  " +:+ a +:+ b) ->
  ~ In line (map (lane_line summary) (LANES th)).
Proof.
  intros Hline [lane [Heq _]]%in_map_iff. unfold lane_line in Heq.
  symmetry in Heq. revert Heq. apply Hline.
Qed.

Lemma not_in_outstanding_lines (outstanding : list (string * list string)) (line : string) :
  (forall a b, line <> "  " +:+ a +:+ b) ->
  ~ In line (outstanding_lines outstanding).
Proof.
  intros Hline Hin. unfold outstanding_lines in Hin.
  apply in_flat_map in Hin as [[key values] [_ [Heq|Hin]]].
  - symmetry in Heq. revert Heq. apply Hline.
  - apply in_map_iff in Hin as [value [Heq _]].
    symmetry in Heq. revert Heq.
    change ("    - " +:+ value) with ("  " +:+ "  - " +:+ value). apply Hline.
Qed.

End Verdict.

(** X17. The text of a summary gives one verdict, read off the outstanding
    items alone.  It has the line "All acceptance checks passed." exactly
    when [summary.outstanding()] is empty, and the line "Outstanding items:"
    exactly when it is not; whether the summary is ok plays no part. *)
Theorem summary_text_verdict (th : TaskHelpers) (summary : AcceptanceSummary) :
  (In "All acceptance checks passed." (_summary_to_text th summary)
   <-> as_outstanding summary = [])
  /\ (In "Outstanding items:" (_summary_to_text th summary)
      <-> as_outstanding summary <> []).
Proof.
  rewrite summary_to_text_eq.
  pose proof (not_in_lane_lines th summary _ passed_line_not_indented) as Hl1.
  pose proof (not_in_lane_lines th summary _ outstanding_heading_not_indented) as Hl2.
  destruct (as_outstanding summary) as [|o rest] eqn:Hout.
  - split; split.
    + reflexivity.
    + intros _. apply in_or_app. right. apply in_or_app. right.
      apply in_or_app. right. apply in_or_app. left. now left.
    + intros Hin. exfalso.
      apply in_app_or in Hin as [Hin|Hin].
      { simpl in Hin. repeat destruct Hin as [Hin|Hin]; try discriminate; assumption. }
      apply in_app_or in Hin as [Hin|Hin]; [now apply Hl2|].
      apply in_app_or in Hin as [Hin|Hin].
      { simpl in Hin. destruct Hin as [Hin|[]]. discriminate. }
      apply in_app_or in Hin as [Hin|Hin].
      { simpl in Hin. destruct Hin as [Hin|[]]. discriminate. }
      destruct (as_optional_missing summary); simpl in Hin; [assumption|].
      destruct Hin as [Hin|[Hin|[]]]; [discriminate|].
      revert Hin. rewrite append_cons. discriminate.
    + intros Hne. now contradiction Hne.
  - split; split.
    + intros Hin. exfalso.
      apply in_app_or in Hin as [Hin|Hin].
      { simpl in Hin. repeat destruct Hin as [Hin|Hin]; try discriminate; assumption. }
      apply in_app_or in Hin as [Hin|Hin]; [now apply Hl1|].
      apply in_app_or in Hin as [Hin|Hin].
      { simpl in Hin. destruct Hin as [Hin|[]]. discriminate. }
      apply in_app_or in Hin as [Hin|Hin].
      { destruct Hin as [Hin|Hin]; [discriminate|].
        revert Hin. apply not_in_outstanding_lines, passed_line_not_indented. }
      destruct (as_optional_missing summary); simpl in Hin; [assumption|].
      destruct Hin as [Hin|[Hin|[]]]; [discriminate|].
      revert Hin. rewrite append_cons. discriminate.
    + discriminate.
    + discriminate.
    + intros _. apply in_or_app. right. apply in_or_app. right.
      apply in_or_app. right. apply in_or_app. left. now left.
Qed.

(* ================================================================== *)
(** * The further properties at work on the small repository *)

(** [main] on a move of WP01 to the lane it is in. *)
Lemma main_handles_task_errors_witness :
  main Demo.os (Demo.helpers []) (Demo.acceptance true)
    (CmdMove (Demo.move_wp01 "planned" false false)) Demo.start
  = (Return 1%Z,
     mkWorld [] [] ["Error: Work package already in lane 'planned'."]).
Proof.
  exact (proj2 (main_handles_task_errors Demo.os (Demo.helpers []) (Demo.acceptance true)
                  (CmdMove (Demo.move_wp01 "planned" false false)) Demo.start)).
Defined.

(** [status] and [verify] on a summary with outstanding items. *)
Lemma verify_is_status_with_exit_code_witness :
  status_command (Demo.helpers []) (Demo.acceptance false)
    (mkStatusArgs (Some "001-demo") false false) Demo.start
  = (Return tt,
     mkWorld [] (_summary_to_text (Demo.helpers []) (Demo.summary false)) [])
  /\ verify_command (Demo.helpers []) (Demo.acceptance false)
       (mkStatusArgs (Some "001-demo") false false) Demo.start
     = (Raise (SystemExit 1),
        mkWorld [] (_summary_to_text (Demo.helpers []) (Demo.summary false)) []).
Proof.
  exact (proj2 (verify_is_status_with_exit_code (Demo.helpers []) (Demo.acceptance false)
                  (mkStatusArgs (Some "001-demo") false false) Demo.start)
           Demo.repo "001-demo" (Demo.summary false) eq_refl eq_refl eq_refl).
Defined.

(** [accept] in checklist mode, with [--allow-fail], on a summary with
    outstanding items. *)
Lemma accept_checklist_only_reports_witness :
  accept_command Demo.os (Demo.helpers []) (Demo.acceptance false)
    (mkAcceptArgs (Some "001-demo") "checklist" None None true false false true)
    Demo.start
  = (Raise (SystemExit 1), mkWorld [] ["{}"] []).
Proof.
  exact (accept_checklist_only_reports Demo.os (Demo.helpers []) (Demo.acceptance false)
           (mkAcceptArgs (Some "001-demo") "checklist" None None true false false true)
           Demo.start Demo.repo "001-demo" (Demo.summary false)
           eq_refl eq_refl eq_refl eq_refl).
Defined.

(** [accept] when the acceptance fails. *)
Lemma accept_reports_acceptance_error_witness :
  accept_command Demo.os (Demo.helpers []) DemoMore.failing_acceptance
    (Demo.accept false false) Demo.start
  = (Raise (SystemExit 1),
     mkWorld [PerformAcceptance "001-demo" "local" (Some "reviewer") [] true] []
       ["Error: Working tree is dirty."]).
Proof.
  exact (accept_reports_acceptance_error Demo.os (Demo.helpers [])
           DemoMore.failing_acceptance (Demo.accept false false) Demo.start
           (mkWorld [PerformAcceptance "001-demo" "local" (Some "reviewer") [] true] [] [])
           Demo.repo "001-demo" "Working tree is dirty." (Demo.summary true)
           eq_refl eq_refl eq_refl ltac:(discriminate) (or_introl eq_refl) eq_refl).
Defined.

(** A history entry for WP01. *)
Lemma history_rewrites_in_place_witness :
  exists first_line,
    calls (snd (history_command Demo.os (Demo.helpers []) DemoMore.history_wp01_plain
                  Demo.start))
    = [WriteText Demo.wp01_path
         (Demo.wp_text "WP01" "planned" "robin"
            ["- 2025-01-01T00:00:00Z – system – shell_pid= – lane=planned – Created";
             "- 2025-01-02T03:04:05Z – robin – shell_pid= – lane=planned – Reviewed"]);
       RunGit ["add"; "kitty-specs/001-demo/tasks/planned/WP01.md"] Demo.repo]
    /\ stdout (snd (history_command Demo.os (Demo.helpers []) DemoMore.history_wp01_plain
                      Demo.start))
       = [first_line;
          "   - 2025-01-02T03:04:05Z – robin – shell_pid= – lane=planned – Reviewed"].
Proof.
  assert (history_command Demo.os (Demo.helpers []) DemoMore.history_wp01_plain Demo.start
          = (Return tt,
             snd (history_command Demo.os (Demo.helpers []) DemoMore.history_wp01_plain
                    Demo.start))) as Hrun
    by (vm_compute; reflexivity).
  destruct (history_rewrites_in_place Demo.os (Demo.helpers [])
              DemoMore.history_wp01_plain Demo.start _ Demo.repo Demo.wp01 "planned"
              eq_refl eq_refl eq_refl eq_refl Hrun)
    as (rel & first_line & Hrel & Hcalls & Hout).
  exists first_line. vm_compute in Hrel. injection Hrel as <-.
  split; [rewrite Hcalls | rewrite Hout]; vm_compute; reflexivity.
Defined.

(** The same history entry: the frontmatter of WP01 is written back as it
    was. *)
Lemma plain_history_keeps_frontmatter_witness :
  In (WriteText Demo.wp01_path
        (Document.build_document (wp_frontmatter Demo.wp01)
           (ActivityLog.append_activity_log (wp_body Demo.wp01)
              "- 2025-01-02T03:04:05Z – robin – shell_pid= – lane=planned – Reviewed")
           (wp_padding Demo.wp01)))
     (calls (snd (history_command Demo.os (Demo.helpers []) DemoMore.history_wp01_plain
                    Demo.start))).
Proof.
  assert (history_command Demo.os (Demo.helpers []) DemoMore.history_wp01_plain Demo.start
          = (Return tt,
             snd (history_command Demo.os (Demo.helpers []) DemoMore.history_wp01_plain
                    Demo.start))) as Hrun
    by (vm_compute; reflexivity).
  exact (plain_history_keeps_frontmatter Demo.os (Demo.helpers [])
           DemoMore.history_wp01_plain Demo.start _ Demo.repo Demo.wp01
           eq_refl eq_refl eq_refl eq_refl eq_refl eq_refl eq_refl Hrun).
Defined.

(** A history entry for a lane that is none. *)
Lemma history_rejects_invalid_lane_witness :
  history_command Demo.os (Demo.helpers [])
    (mkHistoryArgs "001-demo" "WP01" "Reviewed" (Some "archive") None None None false
       None false) Demo.start
  = (Raise (TaskCliError "Invalid lane 'archive'."), Demo.start).
Proof.
  exact (history_rejects_invalid_lane Demo.os (Demo.helpers [])
           (mkHistoryArgs "001-demo" "WP01" "Reviewed" (Some "archive") None None None
              false None false)
           Demo.start Demo.repo Demo.wp01 _ eq_refl eq_refl eq_refl).
Defined.

(** A rollback of WP03 as a dry run. *)
Lemma rollback_dry_run_makes_no_call_witness :
  calls (snd (rollback_command Demo.os (Demo.helpers [])
                (mkRollbackArgs "001-demo" "WP03" None None None None None true false)
                Demo.start)) = [].
Proof.
  exact (rollback_dry_run_makes_no_call Demo.os (Demo.helpers [])
           (mkRollbackArgs "001-demo" "WP03" None None None None None true false)
           Demo.start eq_refl).
Defined.

(** A rollback of WP03 after a note logged in its lane. *)
Lemma rollback_to_current_lane_refused_witness :
  rollback_command Demo.os DemoMore.noted_helpers (Demo.rollback_wp "WP03") Demo.start
  = (Raise (TaskCliError "Work package already in lane 'doing'."), Demo.start).
Proof.
  exact (rollback_to_current_lane_refused Demo.os DemoMore.noted_helpers
           (Demo.rollback_wp "WP03") Demo.start Demo.repo DemoMore.wp03_noted []
           (ActivityLog.mkEntry "2025-01-01T08:00:00Z" "codex" (Some "77") "doing" "Started")
           (ActivityLog.mkEntry "2025-01-01T09:00:00Z" "codex" (Some "77") "doing"
              "Half way")
           eq_refl eq_refl eq_refl eq_refl).
Defined.

(** A list of a feature that has no tasks directory, and one of a feature
    whose lanes have none. *)
Lemma list_with_nothing_to_list_witness :
  list_command Demo.os (Demo.helpers []) (mkListArgs "002-none") Demo.start
  = (Raise (TaskCliError
              "Feature '002-none' has no tasks directory at /repo/kitty-specs/002-none/tasks."),
     Demo.start)
  /\ list_command DemoMore.bare_os (Demo.helpers []) (mkListArgs "001-demo") Demo.start
     = (Return tt, mkWorld [] ["No work packages found for feature '001-demo'."] []).
Proof.
  split.
  - exact (proj1 (list_with_nothing_to_list Demo.os (Demo.helpers [])
                    (mkListArgs "002-none") Demo.start Demo.repo eq_refl) eq_refl).
  - refine (proj2 (list_with_nothing_to_list DemoMore.bare_os (Demo.helpers [])
                     (mkListArgs "001-demo") Demo.start Demo.repo eq_refl) eq_refl _).
    intros lane _. right. reflexivity.
Defined.

(** The move of WP01 to doing makes every step. *)
Lemma stage_move_stops_at_failure_witness :
  calls (snd (stage_move Demo.os (Demo.helpers []) Demo.repo Demo.wp01 "doing" "robin"
                "4242" "Started" "2025-01-02T03:04:05Z" false Demo.start))
  = stage_move_steps Demo.os (Demo.helpers []) Demo.repo Demo.wp01 "doing" "robin" "4242"
      "Started" "2025-01-02T03:04:05Z".
Proof.
  destruct (stage_move_stops_at_failure Demo.os (Demo.helpers []) Demo.repo Demo.wp01
              "doing" "robin" "4242" "Started" "2025-01-02T03:04:05Z" Demo.start)
    as (done & Hcalls & _ & _ & _ & _ & Hall).
  rewrite Hcalls. simpl. eapply Hall. vm_compute. reflexivity.
Defined.

(** A dry run of the move of WP01 to doing. *)
Lemma move_dry_run_report_witness :
  move_command Demo.os (Demo.helpers []) (Demo.move_wp01 "doing" true false) Demo.start
  = (Return tt,
     mkWorld []
       ["[dry-run] Would move WP01 to lane 'doing'";
        "[dry-run] New path: kitty-specs/001-demo/tasks/doing/WP01.md"] []).
Proof.
  exact (move_dry_run_report Demo.os (Demo.helpers []) (Demo.move_wp01 "doing" true false)
           Demo.start Demo.repo Demo.wp01 []
           ["kitty-specs"; "001-demo"; "tasks"; "planned"; "WP01.md"]
           ["kitty-specs"; "001-demo"; "tasks"; "doing"; "WP01.md"]
           ["kitty-specs"; "001-demo"; "tasks"; "doing"; "WP01.md"]
           eq_refl eq_refl ltac:(discriminate) eq_refl eq_refl eq_refl
           (or_introl eq_refl) eq_refl eq_refl).
Defined.

(** The move of WP01 to doing prints its log line. *)
Lemma move_prints_what_it_logs_witness :
  stdout (snd (move_command Demo.os (Demo.helpers []) (Demo.move_wp01 "doing" false false)
                 Demo.start))
  = ["✅ Moved WP01 → doing";
     "   kitty-specs/001-demo/tasks/planned/WP01.md → kitty-specs/001-demo/tasks/doing/WP01.md";
     "   Logged: - 2025-01-02T03:04:05Z – robin – shell_pid=4242 – lane=doing – Started"].
Proof.
  assert (move_command Demo.os (Demo.helpers []) (Demo.move_wp01 "doing" false false)
            Demo.start
          = (Return tt,
             snd (move_command Demo.os (Demo.helpers [])
                    (Demo.move_wp01 "doing" false false) Demo.start))) as Hrun
    by (vm_compute; reflexivity).
  destruct (move_prints_what_it_logs Demo.os (Demo.helpers [])
              (Demo.move_wp01 "doing" false false) Demo.start _ Demo.repo Demo.wp01
              eq_refl eq_refl eq_refl Hrun)
    as (old_rel & new_rel & Hold & Hnew & Hout & _).
  vm_compute in Hold, Hnew. injection Hold as <-. injection Hnew as <-.
  rewrite Hout. vm_compute. reflexivity.
Defined.
